(** * SwitchBot configuration flow: a shallow embedding and its properties

    The development follows
    [homeassistant/components/switchbot/config_flow.py].  Python strings are
    [string]s of ASCII characters (Bluetooth addresses, model names and
    field names are ASCII text), dictionaries with string keys are [gmap]s,
    the insertion-ordered map of discovered advertisements is an association
    list, and every step of the flow is a computation in a small
    state-and-exception monad over the transient state of one run.  The
    collaborators outside the repository (the advertisement parser, the
    cloud services, the key verification) and the tables of the component's
    [const] are parameters of the flow.  The options flow that
    [tests/components/purpleair/test_config_flow.py] exercises is modelled
    in [PurpleAir]. *)

From Stdlib Require Import Ascii String NArith ZArith.
From stdpp Require Import base option list gmap strings pretty.

Local Open Scope string_scope.

(** ** Python string primitives used by the flow *)

Module PyStr.

Definition is_upper (c : ascii) : bool :=
  let n := N_of_ascii c in ((65 <=? n) && (n <=? 90))%N.

Definition is_lower (c : ascii) : bool :=
  let n := N_of_ascii c in ((97 <=? n) && (n <=? 122))%N.

(** [str.lower] and [str.upper] on one ASCII character. *)
Definition lower_char (c : ascii) : ascii :=
  if is_upper c then ascii_of_N (N_of_ascii c + 32) else c.

Definition upper_char (c : ascii) : ascii :=
  if is_lower c then ascii_of_N (N_of_ascii c - 32) else c.

Fixpoint map_chars (f : ascii -> ascii) (s : string) : string :=
  match s with
  | EmptyString => EmptyString
  | String c s' => String (f c) (map_chars f s')
  end.

Definition lower : string -> string := map_chars lower_char.
Definition upper : string -> string := map_chars upper_char.

(** [s.replace(old, new)] for a one-character [old]; every call in the
    module has this shape. *)
Fixpoint replace (old : ascii) (new : string) (s : string) : string :=
  match s with
  | EmptyString => EmptyString
  | String c s' =>
      if Ascii.eqb c old then new +:+ replace old new s'
      else String c (replace old new s')
  end.

(** [s.split(sep)] for a one-character separator: never empty. *)
Fixpoint split (sep : ascii) (s : string) : list string :=
  match s with
  | EmptyString => [EmptyString]
  | String c s' =>
      if Ascii.eqb c sep then EmptyString :: split sep s'
      else match split sep s' with
           | [] => [String c EmptyString]
           | w :: ws => String c w :: ws
           end
  end.

(** [l[-k]] for [k >= 1]: [None] stands for [IndexError]. *)
Definition index_from_end {A} (l : list A) (k : nat) : option A :=
  if decide (1 <= k <= length l)%nat then l !! (length l - k)%nat else None.

(** [s[-n:]]: the last [n] characters, the whole string when shorter. *)
Definition last_chars (n : nat) (s : string) : string :=
  String.substring (String.length s - n) n s.

End PyStr.

(** ** Python values, exceptions and the flow monad *)

(** The values that travel in [user_input], in the persisted data bag and in
    the replies of the cloud services: [None], integers, strings and
    dictionaries with string keys. *)
#[warnings="-register-all"]
Inductive value :=
| VNone
| VInt (z : Z)
| VStr (s : string)
| VDict (items : list (string * value)).

(** The exceptions a step can end with.  [ExternalError] stands for what a
    collaborator raises that is no [RuntimeError]: the exceptions of
    [requests] and of [json.loads]. *)
Inductive Exn :=
| AbortFlow (reason : string)
| RuntimeError (msg : string)
| KeyError (key : value)
| IndexError
| TypeError
| AssertionError
| ExternalError (name : string).

Inductive Res (A : Type) :=
| Ok (a : A)
| Raise (e : Exn).
Arguments Ok {A} a.
Arguments Raise {A} e.

Module PyVal.

Fixpoint assoc (k : string) (items : list (string * value)) : option value :=
  match items with
  | [] => None
  | (k', v) :: rest => if String.eqb k k' then Some v else assoc k rest
  end.

(** [v[k]] *)
Definition getitem (v : value) (k : string) : Res value :=
  match v with
  | VDict items =>
      match assoc k items with
      | Some x => Ok x
      | None => Raise (KeyError (VStr k))
      end
  | _ => Raise TypeError
  end.

(** [k in v] *)
Definition contains (k : string) (v : value) : Res bool :=
  match v with
  | VDict items => Ok (bool_decide (is_Some (assoc k items)))
  | VStr s => Ok (bool_decide (is_Some (String.index 0 k s)))
  | _ => Raise TypeError
  end.

(** [d.get(k)] on a dictionary with string keys *)
Definition get (d : gmap string value) (k : string) : value :=
  default VNone (d !! k).

(** [d[k]] on a dictionary with string keys *)
Definition subscript (d : gmap string value) (k : string) : Res value :=
  match d !! k with
  | Some v => Ok v
  | None => Raise (KeyError (VStr k))
  end.

(** [v == s] for a string literal [s] *)
Definition eq_str (v : value) (s : string) : bool :=
  match v with
  | VStr s' => String.eqb s' s
  | _ => false
  end.

(** [v != VInt n] for an integer literal [n] *)
Definition ne_int (v : value) (n : Z) : bool :=
  match v with
  | VInt z => negb (z =? n)%Z
  | _ => true
  end.

End PyVal.

(** ** Identity and display name *)

Definition format_unique_id (address : string) : string :=
  PyStr.lower (PyStr.replace ":" "" address).

(** [results[-2]] raises [IndexError] on an address without any separator. *)
Definition short_address (address : string) : Res string :=
  let results := PyStr.split ":" (PyStr.replace "-" ":" address) in
  match PyStr.index_from_end results 2, PyStr.index_from_end results 1 with
  | Some r2, Some r1 => Ok (PyStr.last_chars 4 (PyStr.upper r2 +:+ PyStr.upper r1))
  | _, _ => Raise IndexError
  end.

(** Two addresses that differ only in the case of their letters or in
    where their colons are. *)
Inductive same_address : string -> string -> Prop :=
| same_nil : same_address "" ""
| same_char c a b :
    same_address a b -> same_address (String c a) (String c b)
| same_lower c a b :
    PyStr.is_upper c = true ->
    same_address a b ->
    same_address (String c a) (String (ascii_of_N (N_of_ascii c + 32)) b)
| same_upper c a b :
    PyStr.is_upper c = true ->
    same_address a b ->
    same_address (String (ascii_of_N (N_of_ascii c + 32)) a) (String c b)
| same_colon_left a b :
    same_address a b -> same_address (String ":" a) b
| same_colon_right a b :
    same_address a b -> same_address a (String ":" b).

(** ** Data of the external libraries, as the flow reads it *)

Record BLEDevice := { ble_address : string }.

(** The advertisement payload is opaque to the flow. *)
Definition AdvertisementData := string.

(** [SwitchBotAdvertisement.data]: ["modelName"] is read with [.get] and may
    be absent; ["modelFriendlyName"] and ["isEncrypted"] are only ever
    subscripted. *)
Record AdvData := {
  modelName : option string;
  modelFriendlyName : string;
  isEncrypted : bool
}.

Record SwitchBotAdvertisement := {
  address : string;
  data : AdvData;
  device : BLEDevice
}.

Record BluetoothServiceInfoBleak := {
  info_address : string;
  info_device : BLEDevice;
  info_advertisement : AdvertisementData;
  connectable : bool
}.

(** What the flow sees of the host: the identities of the persisted records
    of this domain and the advertisements the Bluetooth stack has cached. *)
Record Hass := {
  current_ids : gset string;
  async_discovered_service_info : bool -> list BluetoothServiceInfoBleak
}.

(** ** Results of a step *)

Inductive Field :=
| FStr
| FIn (choices : list (string * string)).

Inductive FlowResult :=
| FlowForm (step_id : string) (data_schema : list (string * Field))
    (errors : option (gmap string string))
    (description_placeholders : list (string * string))
| FlowAbort (reason : string)
| FlowCreateEntry (title : string) (entry_data : gmap string value).

(** Transient state of one run of [SwitchbotConfigFlow]. *)
Record FlowState := {
  unique_id : option string;
  _discovered_adv : option SwitchBotAdvertisement;
  _discovered_advs : list (string * SwitchBotAdvertisement);
  title_placeholders : option (string * string);
  confirm_only : bool
}.

(** [__init__] *)
Definition init_state : FlowState :=
  {| unique_id := None; _discovered_adv := None; _discovered_advs := [];
     title_placeholders := None; confirm_only := false |}.

Definition M (A : Type) : Type := FlowState -> FlowState * Res A.

Definition ret {A} (a : A) : M A := fun st => (st, Ok a).
Definition raise {A} (e : Exn) : M A := fun st => (st, Raise e).
Definition bind {A B} (m : M A) (k : A -> M B) : M B :=
  fun st =>
    match m st with
    | (st', Ok a) => k a st'
    | (st', Raise e) => (st', Raise e)
    end.
Definition get_state : M FlowState := fun st => (st, Ok st).
Definition modify (f : FlowState -> FlowState) : M unit := fun st => (f st, Ok tt).
Definition lift {A} (r : Res A) : M A := fun st => (st, r).

(** [try: body except RuntimeError: handler]; the state reached when the
    exception was raised is kept. *)
Definition try_except_RuntimeError {A} (body handler : M A) : M A :=
  fun st =>
    match body st with
    | (st', Raise (RuntimeError _)) => handler st'
    | r => r
    end.

Notation "'do' x <- m ; k" := (bind m (fun x => k))
  (at level 10, x name, m at level 100, k at level 200).
Notation "'exec' m ; k" := (bind m (fun _ => k))
  (at level 10, m at level 100, k at level 200).

(** Sequencing of plain results: the first exception wins. *)
Notation "'let?' x := r 'in' k" :=
  (match r with
   | Ok x => k
   | Raise e => Raise e
   end)
  (at level 10, x name, r at level 100, k at level 200).

Definition set_unique_id (u : option string) (st : FlowState) : FlowState :=
  {| unique_id := u; _discovered_adv := _discovered_adv st;
     _discovered_advs := _discovered_advs st;
     title_placeholders := title_placeholders st;
     confirm_only := confirm_only st |}.

Definition set_discovered_adv (a : option SwitchBotAdvertisement) (st : FlowState)
  : FlowState :=
  {| unique_id := unique_id st; _discovered_adv := a;
     _discovered_advs := _discovered_advs st;
     title_placeholders := title_placeholders st;
     confirm_only := confirm_only st |}.

Definition set_discovered_advs (l : list (string * SwitchBotAdvertisement))
    (st : FlowState) : FlowState :=
  {| unique_id := unique_id st; _discovered_adv := _discovered_adv st;
     _discovered_advs := l;
     title_placeholders := title_placeholders st;
     confirm_only := confirm_only st |}.

Definition set_title_placeholders (p : option (string * string)) (st : FlowState)
  : FlowState :=
  {| unique_id := unique_id st; _discovered_adv := _discovered_adv st;
     _discovered_advs := _discovered_advs st;
     title_placeholders := p;
     confirm_only := confirm_only st |}.

Definition set_confirm_only (st : FlowState) : FlowState :=
  {| unique_id := unique_id st; _discovered_adv := _discovered_adv st;
     _discovered_advs := _discovered_advs st;
     title_placeholders := title_placeholders st;
     confirm_only := true |}.

(** The field names come from [homeassistant.const] and from the
    component's [const], neither of which is among the sources. *)

(** Modelled from the spec: the address field of the persisted data. *)
Definition CONF_ADDRESS : string := "address".
(** Modelled from the spec: the password field. *)
Definition CONF_PASSWORD : string := "password".
(** Modelled from the spec: the field of the candidate's type. *)
Definition CONF_SENSOR_TYPE : string := "sensor_type".
(** Modelled from the spec: the username field. *)
Definition CONF_USERNAME : string := "username".
(** Modelled from the spec: the key id of the secret bundle. *)
Definition CONF_KEY_ID : string := "key_id".
(** Modelled from the spec: the key material of the secret bundle. *)
Definition CONF_ENCRYPTION_KEY : string := "encryption_key".

(** ** Methods inherited from the host's [ConfigFlow] *)

(** Modelled from the spec: [ConfigFlow.async_set_unique_id] is not among
    the sources; it records the identity of the run. *)
Definition async_set_unique_id (uid : string) : M unit :=
  modify (set_unique_id (Some uid)).

(** Modelled from the spec: [ConfigFlow._abort_if_unique_id_configured] is
    not among the sources; per the duplicate policy the run aborts with
    reason [already_configured] when the store holds a record with the
    identity of the run. *)
Definition _abort_if_unique_id_configured (hass : Hass) : M unit :=
  do st <- get_state;
  match unique_id st with
  | Some uid =>
      if decide (uid ∈ current_ids hass)
      then raise (AbortFlow "already_configured")
      else ret tt
  | None => ret tt
  end.

(** Modelled from the spec: [ConfigFlow._async_current_ids] is not among the
    sources; it is the set of identities of the persisted records. *)
Definition _async_current_ids (hass : Hass) : gset string := current_ids hass.

(** Modelled from the spec: the host's flow manager is not among the
    sources; an [AbortFlow] raised by a step is reported as the terminal
    [abort(reason)], any other exception leaves the step without a result. *)
Definition reported (r : FlowState * Res FlowResult) : option FlowResult :=
  match snd r with
  | Ok res => Some res
  | Raise (AbortFlow reason) => Some (FlowAbort reason)
  | Raise _ => None
  end.

(** ** Constants of the module *)

Definition SWITCHBOT_INTERNAL_API_BASE_URL : string :=
  "https://l9ren7efdj.execute-api.us-east-1.amazonaws.com".

(** The two entries of [SWITCHBOT_COGNITO_POOL] that reach the requests. *)
Definition AppClientId : string := "66r90hdllaj4nnlne4qna0muls".
Definition AppClientSecret : string :=
  "1v3v7vfjsiggiupkeuqvsovg084e3msbefpj9rgh611u30uug6t8".

(** Outcome of [cognito_idp_client.initiate_auth]: a response, the explicit
    rejection [NotAuthorizedException], or any other exception. *)
Inductive AuthOutcome :=
| AuthReturns (auth_response : value)
| AuthNotAuthorized
| AuthRaises (name : string).

(** ** Dictionaries that keep insertion order *)

Module OrdDict.
Section WithValue.
Context {V : Type}.

Fixpoint lookup (k : string) (d : list (string * V)) : option V :=
  match d with
  | [] => None
  | (k', v) :: rest => if String.eqb k k' then Some v else lookup k rest
  end.

Definition mem (k : string) (d : list (string * V)) : bool :=
  bool_decide (is_Some (lookup k d)).

(** [d[k] = v]: in place when the key is there, at the end otherwise. *)
Fixpoint set (k : string) (v : V) (d : list (string * V)) : list (string * V) :=
  match d with
  | [] => [(k, v)]
  | (k', v') :: rest =>
      if String.eqb k k' then (k', v) :: rest else (k', v') :: set k v rest
  end.
End WithValue.
End OrdDict.

(** [[f(x) for x in xs]]: the first exception ends the comprehension. *)
Fixpoint mapM_Res {A B} (f : A -> Res B) (xs : list A) : Res (list B) :=
  match xs with
  | [] => Ok []
  | x :: xs' =>
      let? y := f x in
      let? ys := mapM_Res f xs' in
      Ok (y :: ys)
  end.

(** [f'{discovery.data["modelFriendlyName"]} {short_address(discovery.address)}'] *)
Definition name_from_discovery (discovery : SwitchBotAdvertisement) : Res string :=
  let? short := short_address (address discovery) in
  Ok (modelFriendlyName (data discovery) +:+ " " +:+ short).

(** ** A concrete world, used to run the flow on examples *)

Module Sample.

Definition CONNECTABLE : gmap string string :=
  <["WoLock" := "lock"]> {["WoHand" := "bot"]}.
Definition NON_CONNECTABLE : gmap string string :=
  {["WoSensorTH" := "hygrometer"]}.
Definition SUPPORTED : gmap string string := CONNECTABLE ∪ NON_CONNECTABLE.
Definition LOCK : string := "WoLock".

(** The payload names the device: a lock, a plain or an encrypted bot, a
    meter, a device of an unknown model, or noise. *)
Definition parse (dev : BLEDevice) (adv : AdvertisementData)
  : option SwitchBotAdvertisement :=
  let mk model friendly enc :=
    Some {| address := ble_address dev;
            data := {| modelName := model; modelFriendlyName := friendly;
                       isEncrypted := enc |};
            device := dev |} in
  if String.eqb adv "lock" then mk (Some "WoLock") "Lock" false
  else if String.eqb adv "bot" then mk (Some "WoHand") "Bot" false
  else if String.eqb adv "bot-encrypted" then mk (Some "WoHand") "Bot" true
  else if String.eqb adv "meter" then mk (Some "WoSensorTH") "Meter" false
  else if String.eqb adv "unknown" then mk None "" false
  else None.

(** The lock at [unreachable] does not answer; any other device accepts
    the key c0ffee with id ff. *)
Definition unreachable : string := "AA:BB:CC:DD:EE:00".

Definition verify (dev : BLEDevice) (key_id key : value) : bool :=
  PyVal.eq_str key_id "ff" && PyVal.eq_str key "c0ffee"
  && negb (String.eqb (ble_address dev) unreachable).

Definition hmac (key msg : string) : string := key +:+ "/" +:+ msg.

Definition token (t : string) : value :=
  VDict [("AuthenticationResult", VDict [("AccessToken", VStr t)])].

(** alice, bob and carol have accounts, mallory is rejected, and the
    identity service cannot be reached for anybody else. *)
Definition auth (client_id : string) (username password : value)
    (secret_hash : string) : AuthOutcome :=
  if PyVal.eq_str username "alice" then AuthReturns (token "alice-token")
  else if PyVal.eq_str username "bob" then AuthReturns (token "bob-token")
  else if PyVal.eq_str username "carol" then AuthReturns (token "carol-token")
  else if PyVal.eq_str username "mallory" then AuthNotAuthorized
  else AuthRaises "EndpointConnectionError".

(** The key service answers alice with a key and bob with an error body
    that has no status code; the request of carol times out. *)
Definition post (url : string) (authorization : value) (device_mac : string)
  : Res string :=
  if PyVal.eq_str authorization "alice-token" then Ok "key"
  else if PyVal.eq_str authorization "bob-token" then Ok "forbidden"
  else Raise (ExternalError "Timeout").

Definition credentials (username password : string) : gmap string value :=
  <[CONF_PASSWORD := VStr password]> {[CONF_USERNAME := VStr username]}.

Definition loads (content : string) : Res value :=
  if String.eqb content "key"
  then Ok (VDict [("statusCode", VInt 100);
                  ("body",
                    VDict [("communicationKey",
                             VDict [("keyId", VStr "ff");
                                    ("key", VStr "c0ffee")])])])
  else if String.eqb content "forbidden"
  then Ok (VDict [("message", VStr "Forbidden")])
  else Raise (ExternalError "JSONDecodeError").

Definition format (v : value) : string :=
  match v with
  | VNone => "None"
  | VInt z => pretty z
  | VStr s => s
  | VDict _ => "{...}"
  end.

Definition info (addr : string) (adv : AdvertisementData) (conn : bool)
  : BluetoothServiceInfoBleak :=
  {| info_address := addr; info_device := {| ble_address := addr |};
     info_advertisement := adv; connectable := conn |}.

Definition adv (addr : string) (payload : AdvertisementData)
  : SwitchBotAdvertisement :=
  default
    {| address := addr;
       data := {| modelName := None; modelFriendlyName := ""; isEncrypted := false |};
       device := {| ble_address := addr |} |}
    (parse {| ble_address := addr |} payload).

Definition hass (ids : list string) (conn other : list BluetoothServiceInfoBleak)
  : Hass :=
  {| current_ids := list_to_set ids;
     async_discovered_service_info :=
       fun connectable => if connectable then conn else other |}.

(** A run in which the device at [addr] has been selected. *)
Definition chosen (addr : string) (payload : AdvertisementData) : FlowState :=
  {| unique_id := Some (format_unique_id addr);
     _discovered_adv := Some (adv addr payload);
     _discovered_advs := [(addr, adv addr payload)];
     title_placeholders := None; confirm_only := false |}.

(** A run whose scan has found two encrypted bots. *)
Definition two_bots : FlowState :=
  {| unique_id := None; _discovered_adv := None;
     _discovered_advs :=
       [("AA:BB:CC:DD:00:01", adv "AA:BB:CC:DD:00:01" "bot-encrypted");
        ("AA:BB:CC:DD:00:02", adv "AA:BB:CC:DD:00:02" "bot-encrypted")];
     title_placeholders := None; confirm_only := false |}.

End Sample.

(** ** The options flow of the sensor component *)

Module PurpleAir.
Section WithCoordinates.

(** The search area (latitude, longitude, distance) is opaque here. *)
Context {Coordinates : Type}.

(** Modelled from the spec: what the geographic search of the cloud
    service answers, a list of sensor indices or a failure. *)
Inductive SearchOutcome :=
| Found (sensor_indices : list Z)
| SearchError.

(** Modelled from the spec: the results of a step of the options flow, as
    the tests read them. *)
Inductive OptionsResult :=
| OptionsForm (step_id : string) (errors : gmap string string)
| OptionsAbort (reason : string)
| OptionsCreateEntry (last_update_sensor_add : bool) (sensor_indices : list Z).

(** Modelled from the spec: the list of watched sensors in the options bag
    of the persisted record, and the result of the last search of the run. *)
Record OptionsState := {
  sensor_indices : list Z;
  nearby_sensors : list Z
}.

(** Modelled from the spec: the options flow is not among the sources, only
    its tests are.  The "add item" sub-flow runs the geographic search; no
    result shows the same form again with an error, otherwise the run moves
    on to the choice among the results. *)
Definition async_step_add_sensor (get_nearby_sensors : Coordinates -> SearchOutcome)
    (user_input : option Coordinates) (st : OptionsState)
  : OptionsState * OptionsResult :=
  match user_input with
  | None => (st, OptionsForm "add_sensor" ∅)
  | Some coordinates =>
      match get_nearby_sensors coordinates with
      | SearchError => (st, OptionsForm "add_sensor" {["base" := "unknown"]})
      | Found [] =>
          (st, OptionsForm "add_sensor" {["base" := "no_sensors_near_coordinates"]})
      | Found found =>
          ({| sensor_indices := sensor_indices st; nearby_sensors := found |},
           OptionsForm "choose_sensor" ∅)
      end
  end.

(** Modelled from the spec: the chosen item is appended to the list of the
    options bag, which is written as a whole; an item that is already in
    the bag aborts the run with [already_configured]. *)
Definition async_step_choose_sensor (sensor_index : Z) (st : OptionsState)
  : OptionsState * OptionsResult :=
  if bool_decide (sensor_index ∈ sensor_indices st)
  then (st, OptionsAbort "already_configured")
  else
    let indices := (sensor_indices st ++ [sensor_index])%list in
    ({| sensor_indices := indices; nearby_sensors := nearby_sensors st |},
     OptionsCreateEntry true indices).

End WithCoordinates.
End PurpleAir.

(** ** The configuration flow *)

Section Flow.

(** Collaborators outside the repository. *)
Variable parse_advertisement_data :
  BLEDevice -> AdvertisementData -> option SwitchBotAdvertisement.
Variable SwitchbotModel_LOCK : string.
Variable verify_encryption_key : BLEDevice -> value -> value -> bool.
Variable hmac_sha256_b64 : string -> string -> string.
Variable initiate_auth : string -> value -> value -> string -> AuthOutcome.
Variable requests_post : string -> value -> string -> Res string.
Variable json_loads : string -> Res value.
Variable py_format : value -> string.

(** Tables of the component's [const] module, which is not among the
    sources: model name to supported-model name. *)
Variable CONNECTABLE_SUPPORTED_MODEL_TYPES : gmap string string.
Variable NON_CONNECTABLE_SUPPORTED_MODEL_TYPES : gmap string string.
Variable SUPPORTED_MODEL_TYPES : gmap string string.

(** [model_name in TABLE] where [model_name] comes from [.get]. *)
Definition in_table (model_name : option string) (table : gmap string string)
  : bool :=
  match model_name with
  | Some m => bool_decide (is_Some (table !! m))
  | None => false
  end.

Definition _async_create_entry_from_discovery (user_input : gmap string value)
  : M FlowResult :=
  do st <- get_state;
  match _discovered_adv st with
  | None => raise AssertionError
  | Some discovery =>
      do name <- lift (name_from_discovery discovery);
      match modelName (data discovery) with
      | None => raise (KeyError (VStr "modelName"))
      | Some model_name =>
          match SUPPORTED_MODEL_TYPES !! model_name with
          | None => raise (KeyError (VStr model_name))
          | Some sensor_type =>
              ret (FlowCreateEntry name
                     (<[CONF_SENSOR_TYPE := VStr sensor_type]>
                        (<[CONF_ADDRESS := VStr (address discovery)]> user_input)))
          end
      end
  end.

Definition async_step_confirm (user_input : option (gmap string value))
  : M FlowResult :=
  do st <- get_state;
  match _discovered_adv st with
  | None => raise AssertionError
  | Some adv =>
      match user_input with
      | Some ui => _async_create_entry_from_discovery ui
      | None =>
          exec modify set_confirm_only;
          do name <- lift (name_from_discovery adv);
          ret (FlowForm "confirm" [] None [("name", name)])
      end
  end.

Definition async_step_password (user_input : option (gmap string value))
  : M FlowResult :=
  do st <- get_state;
  match _discovered_adv st with
  | None => raise AssertionError
  | Some adv =>
      match user_input with
      | Some ui => _async_create_entry_from_discovery ui
      | None =>
          do name <- lift (name_from_discovery adv);
          ret (FlowForm "password" [(CONF_PASSWORD, FStr)] None [("name", name)])
      end
  end.

Definition lock_key_form (errors : gmap string string)
    (adv : SwitchBotAdvertisement) : M FlowResult :=
  do name <- lift (name_from_discovery adv);
  ret (FlowForm "lock_key"
         [(CONF_KEY_ID, FStr); (CONF_ENCRYPTION_KEY, FStr)]
         (Some errors) [("name", name)]).

Definition async_step_lock_key (user_input : option (gmap string value))
  : M FlowResult :=
  do st <- get_state;
  match _discovered_adv st with
  | None => raise AssertionError
  | Some adv =>
      match user_input with
      | Some ui =>
          if negb (verify_encryption_key (device adv)
                     (PyVal.get ui CONF_KEY_ID)
                     (PyVal.get ui CONF_ENCRYPTION_KEY))
          then lock_key_form
                 (<[CONF_ENCRYPTION_KEY := "encryption_key_invalid"]>
                    {[CONF_KEY_ID := "key_id_invalid"]}) adv
          else _async_create_entry_from_discovery ui
      | None => lock_key_form ∅ adv
      end
  end.

(** [retrieve_lock_key]: a function of the replies of the two cloud
    services.  [username + AppClientId] needs a string; the subscripts of
    the f-string and of the returned dictionary are evaluated where the
    source evaluates them. *)
Definition retrieve_lock_key (device_mac : string) (username password : value)
  : Res (gmap string value) :=
  match username with
  | VStr u =>
      let msg := u +:+ AppClientId in
      let secret_hash := hmac_sha256_b64 AppClientSecret msg in
      match initiate_auth AppClientId username password secret_hash with
      | AuthNotAuthorized => Raise (RuntimeError "Failed to authenticate")
      | AuthRaises _ =>
          Raise (RuntimeError "Unexpected error during authentication")
      | AuthReturns auth_response =>
          let? unexpected :=
            match auth_response with
            | VNone => Ok true
            | _ =>
                let? has_result :=
                  PyVal.contains "AuthenticationResult" auth_response in
                if negb has_result then Ok true
                else
                  let? result :=
                    PyVal.getitem auth_response "AuthenticationResult" in
                  let? has_token := PyVal.contains "AccessToken" result in
                  Ok (negb has_token)
            end in
          if unexpected
          then Raise (RuntimeError "Unexpected authentication response")
          else
            let? result := PyVal.getitem auth_response "AuthenticationResult" in
            let? access_token := PyVal.getitem result "AccessToken" in
            let? content :=
              requests_post
                (SWITCHBOT_INTERNAL_API_BASE_URL
                   +:+ "/developStage/keys/v1/communicate")
                access_token
                (PyStr.upper
                   (PyStr.replace "-" "" (PyStr.replace ":" "" device_mac))) in
            let? key_response_content := json_loads content in
            let? status := PyVal.getitem key_response_content "statusCode" in
            if PyVal.ne_int status 100
            then
              let? status' := PyVal.getitem key_response_content "statusCode" in
              Raise (RuntimeError
                       ("Unexpected status code returned byt SwitchBot API: "
                          +:+ py_format status'))
            else
              let? body := PyVal.getitem key_response_content "body" in
              let? communication_key := PyVal.getitem body "communicationKey" in
              let? key_id := PyVal.getitem communication_key "keyId" in
              let? body' := PyVal.getitem key_response_content "body" in
              let? communication_key' := PyVal.getitem body' "communicationKey" in
              let? key := PyVal.getitem communication_key' "key" in
              Ok (<[CONF_ENCRYPTION_KEY := key]> {[CONF_KEY_ID := key_id]})
      end
  | _ => Raise TypeError
  end.

Definition lock_auth_form (errors : gmap string string)
    (adv : SwitchBotAdvertisement) : M FlowResult :=
  do name <- lift (name_from_discovery adv);
  ret (FlowForm "lock_auth"
         [(CONF_USERNAME, FStr); (CONF_PASSWORD, FStr)]
         (Some errors) [("name", name)]).

Definition async_step_lock_auth (user_input : option (gmap string value))
  : M FlowResult :=
  do st <- get_state;
  match _discovered_adv st with
  | None => raise AssertionError
  | Some adv =>
      match user_input with
      | Some ui =>
          try_except_RuntimeError
            (do key_details <-
               lift (retrieve_lock_key (address adv)
                       (PyVal.get ui CONF_USERNAME)
                       (PyVal.get ui CONF_PASSWORD));
             async_step_lock_key (Some key_details))
            (lock_auth_form {[CONF_USERNAME := "auth_failed"]} adv)
      | None => lock_auth_form ∅ adv
      end
  end.

Definition lock_chose_method_form (adv : SwitchBotAdvertisement) : M FlowResult :=
  do name <- lift (name_from_discovery adv);
  ret (FlowForm "lock_chose_method"
         [("method",
            FIn [("login_password", "SwitchBot App login and password");
                 ("encryption_key", "Lock encryption key")])]
         None [("name", name)]).

Definition async_step_lock_chose_method (user_input : option (gmap string value))
  : M FlowResult :=
  do st <- get_state;
  match _discovered_adv st with
  | None => raise AssertionError
  | Some adv =>
      match user_input with
      | Some ui =>
          let method := PyVal.get ui "method" in
          if PyVal.eq_str method "login_password"
          then async_step_lock_auth None
          else if PyVal.eq_str method "encryption_key"
          then async_step_lock_key None
          else lock_chose_method_form adv
      | None => lock_chose_method_form adv
      end
  end.

Definition async_step_bluetooth (hass : Hass)
    (discovery_info : BluetoothServiceInfoBleak) : M FlowResult :=
  exec async_set_unique_id (format_unique_id (info_address discovery_info));
  exec _abort_if_unique_id_configured hass;
  match parse_advertisement_data (info_device discovery_info)
          (info_advertisement discovery_info) with
  | None => ret (FlowAbort "not_supported")
  | Some parsed =>
      if negb (in_table (modelName (data parsed)) SUPPORTED_MODEL_TYPES)
      then ret (FlowAbort "not_supported")
      else
        let model_name := modelName (data parsed) in
        if negb (connectable discovery_info)
           && in_table model_name CONNECTABLE_SUPPORTED_MODEL_TYPES
        then ret (FlowAbort "not_supported")
        else
          exec modify (set_discovered_adv (Some parsed));
          do short <- lift (short_address (info_address discovery_info));
          exec modify (set_title_placeholders
                         (Some (modelFriendlyName (data parsed), short)));
          if isEncrypted (data parsed)
          then async_step_password None
          else async_step_confirm None
  end.

(** Body of the inner loop of [_async_discover_devices], on the map of
    discovered advertisements. *)
Definition discover_one (current_addresses : gset string)
    (advs : list (string * SwitchBotAdvertisement))
    (discovery_info : BluetoothServiceInfoBleak)
  : list (string * SwitchBotAdvertisement) :=
  let address := info_address discovery_info in
  if bool_decide (format_unique_id address ∈ current_addresses)
     || OrdDict.mem address advs
  then advs
  else
    match parse_advertisement_data (info_device discovery_info)
            (info_advertisement discovery_info) with
    | None => advs
    | Some parsed =>
        let model_name := modelName (data parsed) in
        if (connectable discovery_info
            && in_table model_name CONNECTABLE_SUPPORTED_MODEL_TYPES)
           || in_table model_name NON_CONNECTABLE_SUPPORTED_MODEL_TYPES
        then OrdDict.set address parsed advs
        else advs
    end.

Definition discover_all (hass : Hass)
    (advs : list (string * SwitchBotAdvertisement))
  : list (string * SwitchBotAdvertisement) :=
  let current_addresses := _async_current_ids hass in
  foldl
    (fun acc connectable =>
       foldl (discover_one current_addresses) acc
         (async_discovered_service_info hass connectable))
    advs [true; false].

Definition _async_discover_devices (hass : Hass) : M unit :=
  do st <- get_state;
  exec modify (set_discovered_advs (discover_all hass (_discovered_advs st)));
  do st' <- get_state;
  match _discovered_advs st' with
  | [] => raise (AbortFlow "no_unconfigured_devices")
  | _ => ret tt
  end.

Definition _async_set_device (hass : Hass) (discovery : SwitchBotAdvertisement)
  : M unit :=
  exec modify (set_discovered_adv (Some discovery));
  let address := address discovery in
  exec async_set_unique_id (format_unique_id address);
  _abort_if_unique_id_configured hass.

(** [self._discovered_advs[key]] for a key taken from [user_input]. *)
Definition discovered_advs_getitem (key : value)
    (advs : list (string * SwitchBotAdvertisement)) : Res SwitchBotAdvertisement :=
  match key with
  | VStr k =>
      match OrdDict.lookup k advs with
      | Some adv => Ok adv
      | None => Raise (KeyError key)
      end
  | VDict _ => Raise TypeError
  | _ => Raise (KeyError key)
  end.

Definition user_form (advs : list (string * SwitchBotAdvertisement))
  : M FlowResult :=
  do choices <-
    lift (mapM_Res
            (fun '(address, parsed) =>
               let? name := name_from_discovery parsed in Ok (address, name))
            advs);
  ret (FlowForm "user" [(CONF_ADDRESS, FIn choices)] (Some ∅) []).

Definition async_step_user (hass : Hass) (user_input : option (gmap string value))
  : M FlowResult :=
  match user_input with
  | Some ui =>
      do key <- lift (PyVal.subscript ui CONF_ADDRESS);
      do st <- get_state;
      do device_adv <- lift (discovered_advs_getitem key (_discovered_advs st));
      exec _async_set_device hass device_adv;
      if bool_decide (modelName (data device_adv) = Some SwitchbotModel_LOCK)
      then async_step_lock_chose_method None
      else if isEncrypted (data device_adv)
      then async_step_password None
      else _async_create_entry_from_discovery ui
  | None =>
      exec _async_discover_devices hass;
      do st <- get_state;
      if bool_decide (length (_discovered_advs st) = 1)
      then
        match _discovered_advs st with
        | [] => raise IndexError
        | (_, device_adv) :: _ =>
            exec _async_set_device hass device_adv;
            if bool_decide (modelName (data device_adv) = Some SwitchbotModel_LOCK)
            then async_step_lock_chose_method None
            else if isEncrypted (data device_adv)
            then async_step_password None
            else async_step_confirm None
        end
      else user_form (_discovered_advs st)
  end.

(** The state in which the branch decision is taken: the candidate is
    selected and its identity recorded. *)
Definition selected (adv : SwitchBotAdvertisement) (st : FlowState) : FlowState :=
  set_unique_id (Some (format_unique_id (address adv)))
    (set_discovered_adv (Some adv) st).

(** Modelled from the spec: the host, which is not among the sources,
    resumes a suspended run once per submission; the step is run on each
    input in turn, from the state the previous one left. *)
Fixpoint submit_all {I : Type} (step : I -> M FlowResult) (inputs : list I)
    (st : FlowState) : FlowState * list (Res FlowResult) :=
  match inputs with
  | [] => (st, [])
  | i :: rest =>
      let (st1, r) := step i st in
      let (st2, rs) := submit_all step rest st1 in
      (st2, r :: rs)
  end.

(** ** Properties of the flow *)

(** Unfolding of the monad, for symbolic execution of a step. *)
Ltac run_flow :=
  repeat (cbv beta iota delta
            [bind ret raise get_state modify lift async_set_unique_id
             _abort_if_unique_id_configured reported];
          cbn [fst snd unique_id _discovered_adv _discovered_advs
               title_placeholders confirm_only set_unique_id
               set_discovered_adv set_discovered_advs
               set_title_placeholders set_confirm_only]).

Lemma bind_ok {A B} (m : M A) (k : A -> M B) st st' a :
  m st = (st', Ok a) -> bind m k st = k a st'.
Proof. intros H. unfold bind. rewrite H. reflexivity. Qed.

Lemma bind_raise {A B} (m : M A) (k : A -> M B) st st' e :
  m st = (st', Raise e) -> bind m k st = (st', Raise e).
Proof. intros H. unfold bind. rewrite H. reflexivity. Qed.

Lemma set_device_configured hass discovery st :
  format_unique_id (address discovery) ∈ current_ids hass ->
  _async_set_device hass discovery st
  = (set_unique_id (Some (format_unique_id (address discovery)))
       (set_discovered_adv (Some discovery) st),
     Raise (AbortFlow "already_configured")).
Proof.
  intros Hin. unfold _async_set_device. run_flow.
  rewrite decide_True by exact Hin. reflexivity.
Qed.

Lemma set_device_unconfigured hass discovery st :
  format_unique_id (address discovery) ∉ current_ids hass ->
  _async_set_device hass discovery st
  = (set_unique_id (Some (format_unique_id (address discovery)))
       (set_discovered_adv (Some discovery) st),
     Ok tt).
Proof.
  intros Hin. unfold _async_set_device. run_flow.
  rewrite decide_False by exact Hin. reflexivity.
Qed.

Lemma discover_devices_nonempty hass st :
  discover_all hass (_discovered_advs st) <> [] ->
  _async_discover_devices hass st
  = (set_discovered_advs (discover_all hass (_discovered_advs st)) st, Ok tt).
Proof.
  intros Hne. unfold _async_discover_devices. run_flow.
  destruct (discover_all hass (_discovered_advs st)); [congruence | reflexivity].
Qed.

Lemma discover_devices_empty hass st :
  discover_all hass (_discovered_advs st) = [] ->
  _async_discover_devices hass st
  = (set_discovered_advs [] st, Raise (AbortFlow "no_unconfigured_devices")).
Proof.
  intros He. unfold _async_discover_devices. run_flow.
  rewrite He. reflexivity.
Qed.

(** C1: when the store already holds a record with the normalized address
    of the candidate, the passive entry point and the explicit selection
    both abort with [already_configured], from whatever state the run has
    reached. *)
Theorem duplicate_identity_aborts
    (hass : Hass) (st : FlowState)
    (discovery_info : BluetoothServiceInfoBleak)
    (discovery : SwitchBotAdvertisement)
    (Hinfo : format_unique_id (info_address discovery_info) ∈ current_ids hass)
    (Hadv : format_unique_id (address discovery) ∈ current_ids hass) :
  reported (async_step_bluetooth hass discovery_info st)
    = Some (FlowAbort "already_configured")
  /\ snd (_async_set_device hass discovery st)
    = Raise (AbortFlow "already_configured")
  /\ (forall ui key,
        ui !! CONF_ADDRESS = Some (VStr key) ->
        OrdDict.lookup key (_discovered_advs st) = Some discovery ->
        reported (async_step_user hass (Some ui) st)
          = Some (FlowAbort "already_configured"))
  /\ (forall key,
        discover_all hass (_discovered_advs st) = [(key, discovery)] ->
        reported (async_step_user hass None st)
          = Some (FlowAbort "already_configured")).
Proof.
  repeat split.
  - unfold async_step_bluetooth. run_flow.
    rewrite decide_True by exact Hinfo. reflexivity.
  - rewrite set_device_configured by exact Hadv. reflexivity.
  - intros ui key Hui Hkey. unfold async_step_user.
    erewrite bind_ok; [| unfold lift, PyVal.subscript; rewrite Hui; reflexivity].
    erewrite bind_ok by reflexivity.
    erewrite bind_ok;
      [| unfold lift, discovered_advs_getitem; rewrite Hkey; reflexivity].
    erewrite bind_raise by (apply set_device_configured; exact Hadv).
    reflexivity.
  - intros key Hall. unfold async_step_user.
    erewrite bind_ok by (apply discover_devices_nonempty; rewrite Hall; discriminate).
    erewrite bind_ok by reflexivity.
    cbn [_discovered_advs set_discovered_advs]. rewrite Hall.
    rewrite bool_decide_eq_true_2 by reflexivity.
    erewrite bind_raise by (apply set_device_configured; exact Hadv).
    reflexivity.
Qed.

(** *** Equations of the single steps *)

Lemma lift_bind {A B} (r : Res A) (k : A -> M B) st :
  bind (lift r) k st
  = match r with
    | Ok a => k a st
    | Raise e => (st, Raise e)
    end.
Proof. unfold bind, lift. destruct r; reflexivity. Qed.

Lemma password_form st adv :
  _discovered_adv st = Some adv ->
  async_step_password None st
  = (st,
     let? name := name_from_discovery adv in
     Ok (FlowForm "password" [(CONF_PASSWORD, FStr)] None [("name", name)])).
Proof.
  intros Hadv. unfold async_step_password.
  erewrite bind_ok by reflexivity. rewrite Hadv, lift_bind.
  destruct (name_from_discovery adv); reflexivity.
Qed.

Lemma confirm_form st adv :
  _discovered_adv st = Some adv ->
  async_step_confirm None st
  = (set_confirm_only st,
     let? name := name_from_discovery adv in
     Ok (FlowForm "confirm" [] None [("name", name)])).
Proof.
  intros Hadv. unfold async_step_confirm.
  erewrite bind_ok by reflexivity. rewrite Hadv.
  erewrite bind_ok by reflexivity. rewrite lift_bind.
  destruct (name_from_discovery adv); reflexivity.
Qed.

Lemma lock_chose_method_form_eq st adv :
  _discovered_adv st = Some adv ->
  async_step_lock_chose_method None st
  = (st,
     let? name := name_from_discovery adv in
     Ok (FlowForm "lock_chose_method"
           [("method",
              FIn [("login_password", "SwitchBot App login and password");
                   ("encryption_key", "Lock encryption key")])]
           None [("name", name)])).
Proof.
  intros Hadv. unfold async_step_lock_chose_method.
  erewrite bind_ok by reflexivity. rewrite Hadv.
  unfold lock_chose_method_form. rewrite lift_bind.
  destruct (name_from_discovery adv); reflexivity.
Qed.

Lemma create_entry_eq st adv ui :
  _discovered_adv st = Some adv ->
  _async_create_entry_from_discovery ui st
  = (st,
     let? name := name_from_discovery adv in
     match modelName (data adv) with
     | None => Raise (KeyError (VStr "modelName"))
     | Some model_name =>
         match SUPPORTED_MODEL_TYPES !! model_name with
         | None => Raise (KeyError (VStr model_name))
         | Some sensor_type =>
             Ok (FlowCreateEntry name
                   (<[CONF_SENSOR_TYPE := VStr sensor_type]>
                      (<[CONF_ADDRESS := VStr (address adv)]> ui)))
         end
     end).
Proof.
  intros Hadv. unfold _async_create_entry_from_discovery.
  erewrite bind_ok by reflexivity. rewrite Hadv, lift_bind.
  destruct (name_from_discovery adv); [| reflexivity].
  destruct (modelName (data adv)) as [m|]; [| reflexivity].
  destruct (SUPPORTED_MODEL_TYPES !! m); reflexivity.
Qed.

(** Everything [async_step_bluetooth] does once the identity is known not
    to be configured. *)
Lemma bluetooth_unconfigured hass discovery_info st :
  format_unique_id (info_address discovery_info) ∉ current_ids hass ->
  async_step_bluetooth hass discovery_info st
  = let st1 :=
      set_unique_id (Some (format_unique_id (info_address discovery_info))) st in
    match parse_advertisement_data (info_device discovery_info)
            (info_advertisement discovery_info) with
    | None => (st1, Ok (FlowAbort "not_supported"))
    | Some parsed =>
        if negb (in_table (modelName (data parsed)) SUPPORTED_MODEL_TYPES)
        then (st1, Ok (FlowAbort "not_supported"))
        else if negb (connectable discovery_info)
                && in_table (modelName (data parsed))
                     CONNECTABLE_SUPPORTED_MODEL_TYPES
        then (st1, Ok (FlowAbort "not_supported"))
        else
          let st2 := set_discovered_adv (Some parsed) st1 in
          match short_address (info_address discovery_info) with
          | Raise e => (st2, Raise e)
          | Ok short =>
              let st3 :=
                set_title_placeholders
                  (Some (modelFriendlyName (data parsed), short)) st2 in
              if isEncrypted (data parsed)
              then async_step_password None st3
              else async_step_confirm None st3
          end
    end.
Proof.
  intros Hnew. unfold async_step_bluetooth.
  erewrite bind_ok by reflexivity.
  erewrite bind_ok;
    [| unfold _abort_if_unique_id_configured; run_flow;
       rewrite decide_False by exact Hnew; reflexivity].
  cbv zeta.
  destruct (parse_advertisement_data _ _) as [parsed|]; [| reflexivity].
  destruct (negb (in_table _ SUPPORTED_MODEL_TYPES)); [reflexivity |].
  destruct (negb (connectable discovery_info) && _); [reflexivity |].
  erewrite bind_ok by reflexivity. rewrite lift_bind.
  destruct (short_address _); [| reflexivity].
  erewrite bind_ok by reflexivity.
  destruct (isEncrypted (data parsed)); reflexivity.
Qed.

Lemma bluetooth_configured hass discovery_info st :
  format_unique_id (info_address discovery_info) ∈ current_ids hass ->
  async_step_bluetooth hass discovery_info st
  = (set_unique_id (Some (format_unique_id (info_address discovery_info))) st,
     Raise (AbortFlow "already_configured")).
Proof.
  intros Hold. unfold async_step_bluetooth. run_flow.
  rewrite decide_True by exact Hold. reflexivity.
Qed.

(** *** Eligibility of a discovery event *)

Lemma short_address_raises a e : short_address a = Raise e -> e = IndexError.
Proof.
  unfold short_address. cbv zeta.
  destruct (PyStr.index_from_end _ 2); [| congruence].
  destruct (PyStr.index_from_end _ 1); congruence.
Qed.

Lemma name_from_discovery_raises adv e :
  name_from_discovery adv = Raise e -> e = IndexError.
Proof.
  unfold name_from_discovery.
  destruct (short_address (address adv)) eqn:Hs; [discriminate |].
  intros [= <-]. exact (short_address_raises _ _ Hs).
Qed.

(** A step that shows its form, or fails on the display name, is not
    reported as an abort. *)
Lemma form_not_abort st (name : Res string) (form : string -> FlowResult) reason :
  (forall n, form n <> FlowAbort reason) ->
  (forall e, name = Raise e -> e = IndexError) ->
  reported (st, let? n := name in Ok (form n)) <> Some (FlowAbort reason).
Proof.
  intros Hform Hraise. destruct name as [n | e]; cbn.
  - intros [= H]. exact (Hform n H).
  - rewrite (Hraise e eq_refl). discriminate.
Qed.

Lemma OrdDict_set_fresh {V} k (v : V) d :
  OrdDict.mem k d = false -> OrdDict.set k v d = (d ++ [(k, v)])%list.
Proof.
  unfold OrdDict.mem. induction d as [| [k' v'] d IH]; intros Hmem.
  - reflexivity.
  - cbn [OrdDict.lookup OrdDict.set] in *.
    destruct (String.eqb k k').
    + apply bool_decide_eq_false in Hmem. exfalso. apply Hmem. eexists; reflexivity.
    + cbn [app]. f_equal. apply IH, Hmem.
Qed.

Lemma OrdDict_set_fresh_neq {V} k (v : V) d :
  OrdDict.mem k d = false -> OrdDict.set k v d <> d.
Proof.
  intros Hmem Heq. rewrite OrdDict_set_fresh in Heq by exact Hmem.
  apply (f_equal length) in Heq. rewrite length_app in Heq. cbn in Heq. lia.
Qed.

Lemma in_table_dom m (table : gmap string string) :
  in_table (Some m) table = true <-> m ∈ dom table.
Proof.
  unfold in_table. rewrite bool_decide_eq_true. symmetry. apply elem_of_dom.
Qed.

Lemma discover_one_eq current_addresses advs discovery_info :
  format_unique_id (info_address discovery_info) ∉ current_addresses ->
  OrdDict.mem (info_address discovery_info) advs = false ->
  discover_one current_addresses advs discovery_info
  = match parse_advertisement_data (info_device discovery_info)
            (info_advertisement discovery_info) with
    | None => advs
    | Some parsed =>
        if (connectable discovery_info
            && in_table (modelName (data parsed)) CONNECTABLE_SUPPORTED_MODEL_TYPES)
           || in_table (modelName (data parsed)) NON_CONNECTABLE_SUPPORTED_MODEL_TYPES
        then (advs ++ [(info_address discovery_info, parsed)])%list
        else advs
    end.
Proof.
  intros Hnew Hmem. unfold discover_one. cbv zeta.
  rewrite bool_decide_eq_false_2 by exact Hnew. rewrite Hmem. cbn [orb].
  destruct (parse_advertisement_data _ _) as [parsed|]; [| reflexivity].
  destruct (_ || _); [| reflexivity].
  apply OrdDict_set_fresh, Hmem.
Qed.

Lemma OrdDict_lookup_set_ne {V} k k' (v : V) d :
  k <> k' -> OrdDict.lookup k (OrdDict.set k' v d) = OrdDict.lookup k d.
Proof.
  intros Hne. induction d as [| [k0 v0] d IH]; cbn [OrdDict.set OrdDict.lookup].
  - rewrite (proj2 (String.eqb_neq k k')) by exact Hne. reflexivity.
  - destruct (String.eqb k' k0) eqn:Hk'; cbn [OrdDict.lookup].
    + apply String.eqb_eq in Hk'. subst k0.
      rewrite (proj2 (String.eqb_neq k k')) by exact Hne. reflexivity.
    + rewrite IH. reflexivity.
Qed.

Lemma discover_one_other current_addresses advs discovery_info a :
  info_address discovery_info <> a ->
  OrdDict.mem a (discover_one current_addresses advs discovery_info)
  = OrdDict.mem a advs.
Proof.
  intros Hne. unfold discover_one. cbv zeta.
  destruct (_ || OrdDict.mem _ _); [reflexivity |].
  destruct (parse_advertisement_data _ _) as [parsed|]; [| reflexivity].
  destruct (_ || _); [| reflexivity].
  unfold OrdDict.mem. rewrite OrdDict_lookup_set_ne by congruence. reflexivity.
Qed.

Lemma foldl_discover_excludes current_addresses infos advs a :
  OrdDict.mem a advs = false ->
  (forall info advs',
      info ∈ infos -> info_address info = a ->
      discover_one current_addresses advs' info = advs') ->
  OrdDict.mem a (foldl (discover_one current_addresses) advs infos) = false.
Proof.
  revert advs. induction infos as [| info infos IH]; intros advs Hmem Hall;
    [exact Hmem |].
  cbn [foldl]. apply IH.
  - destruct (decide (info_address info = a)) as [Ha | Ha].
    + rewrite Hall; [exact Hmem | apply list_elem_of_here | exact Ha].
    + rewrite discover_one_other by exact Ha. exact Hmem.
  - intros info' advs' Hin. apply Hall, list_elem_of_further, Hin.
Qed.

Lemma discover_all_excludes hass advs a :
  OrdDict.mem a advs = false ->
  (forall c info advs',
      info ∈ async_discovered_service_info hass c -> info_address info = a ->
      discover_one (current_ids hass) advs' info = advs') ->
  OrdDict.mem a (discover_all hass advs) = false.
Proof.
  intros Hmem Hall. unfold discover_all, _async_current_ids. cbn [foldl].
  apply foldl_discover_excludes; [apply foldl_discover_excludes |];
    try exact Hmem; intros info advs'; apply Hall.
Qed.

Section WithTables.

(** What the flow expects of the tables of [const]: a model is supported
    when it is in one of the two tables, and no model is in both. *)
Hypothesis supported_union :
  dom SUPPORTED_MODEL_TYPES
  = dom CONNECTABLE_SUPPORTED_MODEL_TYPES ∪ dom NON_CONNECTABLE_SUPPORTED_MODEL_TYPES.
Hypothesis connectable_disjoint :
  dom CONNECTABLE_SUPPORTED_MODEL_TYPES ## dom NON_CONNECTABLE_SUPPORTED_MODEL_TYPES.

Lemma in_table_supported model_name :
  in_table model_name SUPPORTED_MODEL_TYPES
  = in_table model_name CONNECTABLE_SUPPORTED_MODEL_TYPES
    || in_table model_name NON_CONNECTABLE_SUPPORTED_MODEL_TYPES.
Proof.
  destruct model_name as [m|]; [| reflexivity].
  apply eq_true_iff_eq. rewrite orb_true_iff, !in_table_dom, supported_union.
  apply elem_of_union.
Qed.

Lemma in_table_connectable_only model_name :
  in_table model_name CONNECTABLE_SUPPORTED_MODEL_TYPES = true ->
  in_table model_name NON_CONNECTABLE_SUPPORTED_MODEL_TYPES = false.
Proof.
  destruct model_name as [m|]; [| reflexivity].
  rewrite in_table_dom. intros Hc. apply not_true_is_false.
  rewrite in_table_dom. intros Hn. exact (connectable_disjoint m Hc Hn).
Qed.

(** The passive step rejects an event as unsupported exactly when the loop
    body of the active scan leaves the map as it is. *)
Lemma accepted_not_unsupported st discovery_info parsed :
  reported
    (let st2 := set_discovered_adv (Some parsed) st in
     match short_address (info_address discovery_info) with
     | Raise e => (st2, Raise e)
     | Ok short =>
         let st3 :=
           set_title_placeholders
             (Some (modelFriendlyName (data parsed), short)) st2 in
         if isEncrypted (data parsed)
         then async_step_password None st3
         else async_step_confirm None st3
     end)
  <> Some (FlowAbort "not_supported").
Proof.
  cbv zeta. destruct (short_address _) as [short | e] eqn:Hs.
  - destruct (isEncrypted (data parsed)).
    + rewrite (password_form _ parsed) by reflexivity.
      apply form_not_abort; [discriminate | apply name_from_discovery_raises].
    + rewrite (confirm_form _ parsed) by reflexivity.
      apply form_not_abort; [discriminate | apply name_from_discovery_raises].
  - rewrite (short_address_raises _ _ Hs). discriminate.
Qed.

Lemma same_eligibility_rule hass st advs discovery_info :
  format_unique_id (info_address discovery_info) ∉ current_ids hass ->
  OrdDict.mem (info_address discovery_info) advs = false ->
  reported (async_step_bluetooth hass discovery_info st)
    = Some (FlowAbort "not_supported")
  <-> discover_one (current_ids hass) advs discovery_info = advs.
Proof.
  intros Hnew Hmem.
  rewrite bluetooth_unconfigured, discover_one_eq by assumption. cbv zeta.
  destruct (parse_advertisement_data _ _) as [parsed|]; [| split; reflexivity].
  rewrite in_table_supported.
  assert (Hgrow : (advs ++ [(info_address discovery_info, parsed)])%list <> advs).
  { intros Heq. apply (f_equal length) in Heq.
    rewrite length_app in Heq. cbn in Heq. lia. }
  destruct (in_table (modelName (data parsed)) CONNECTABLE_SUPPORTED_MODEL_TYPES)
    eqn:Hc.
  - rewrite (in_table_connectable_only _ Hc).
    destruct (connectable discovery_info); cbn [negb andb orb].
    + split; intros H; exfalso.
      * exact (accepted_not_unsupported _ discovery_info parsed H).
      * exact (Hgrow H).
    + split; reflexivity.
  - rewrite !andb_false_r. cbn [orb].
    destruct (in_table (modelName (data parsed))
                NON_CONNECTABLE_SUPPORTED_MODEL_TYPES); cbn [negb andb].
    + split; intros H; exfalso.
      * exact (accepted_not_unsupported _ discovery_info parsed H).
      * exact (Hgrow H).
    + split; reflexivity.
Qed.

(** C2 (amended): an event that arrived over a non-connectable transport
    for a model of the connectable table yields no candidate.  The passive
    step aborts, with [already_configured] when a record with the identity
    exists (that check runs first) and with [not_supported] otherwise, and
    leaves the selected advertisement as it was; the loop body of the active
    scan leaves the map as it was, so that a scan in which this is the only
    event for its address ends without that address in the map; and both
    paths accept the same events. *)
Theorem non_connectable_event_is_ineligible
    (hass : Hass) (st : FlowState)
    (advs : list (string * SwitchBotAdvertisement))
    (discovery_info : BluetoothServiceInfoBleak) (parsed : SwitchBotAdvertisement)
    (Hparsed : parse_advertisement_data (info_device discovery_info)
                 (info_advertisement discovery_info) = Some parsed)
    (Hmodel : in_table (modelName (data parsed)) CONNECTABLE_SUPPORTED_MODEL_TYPES
              = true)
    (Hconn : connectable discovery_info = false) :
  (reported (async_step_bluetooth hass discovery_info st)
   = Some (FlowAbort
             (if bool_decide (format_unique_id (info_address discovery_info)
                              ∈ current_ids hass)
              then "already_configured" else "not_supported"))
   /\ _discovered_adv (fst (async_step_bluetooth hass discovery_info st))
      = _discovered_adv st)
  /\ discover_one (current_ids hass) advs discovery_info = advs
  /\ (OrdDict.mem (info_address discovery_info) advs = false ->
      (forall c info,
          info ∈ async_discovered_service_info hass c ->
          info_address info = info_address discovery_info ->
          info = discovery_info) ->
      OrdDict.mem (info_address discovery_info) (discover_all hass advs) = false)
  /\ (forall info',
        format_unique_id (info_address info') ∉ current_ids hass ->
        OrdDict.mem (info_address info') advs = false ->
        reported (async_step_bluetooth hass info' st)
          = Some (FlowAbort "not_supported")
        <-> discover_one (current_ids hass) advs info' = advs).
Proof.
  assert (Hone : forall advs',
             discover_one (current_ids hass) advs' discovery_info = advs').
  { intros advs'. unfold discover_one. cbv zeta.
    destruct (_ || OrdDict.mem _ _); [reflexivity |].
    rewrite Hparsed, Hconn, (in_table_connectable_only _ Hmodel). reflexivity. }
  split; [| split; [apply Hone | split]]; cycle 1.
  - intros Hmem Honly. apply discover_all_excludes; [exact Hmem |].
    intros c info advs' Hin Ha. rewrite (Honly c info Hin Ha). apply Hone.
  - intros info' Hnew Hmem. apply same_eligibility_rule; assumption.
  - destruct (decide (format_unique_id (info_address discovery_info)
                      ∈ current_ids hass)) as [Hold | Hnew].
    + rewrite bool_decide_eq_true_2 by exact Hold.
      rewrite bluetooth_configured by exact Hold. split; reflexivity.
    + rewrite bool_decide_eq_false_2 by exact Hnew.
      rewrite bluetooth_unconfigured by exact Hnew. cbv zeta.
      rewrite Hparsed, Hmodel, Hconn. cbn [negb andb].
      destruct (negb _); split; reflexivity.
Qed.

End WithTables.

(** *** The active discovery step *)

Lemma foldl_discover_none current_addresses infos advs :
  (forall info, info ∈ infos -> discover_one current_addresses advs info = advs) ->
  foldl (discover_one current_addresses) advs infos = advs.
Proof.
  induction infos as [| info infos IH]; intros Hall; [reflexivity |].
  cbn [foldl]. rewrite Hall by apply list_elem_of_here.
  apply IH. intros info' Hin. apply Hall, list_elem_of_further, Hin.
Qed.

Lemma discover_all_none hass advs :
  (forall c info,
      info ∈ async_discovered_service_info hass c ->
      discover_one (current_ids hass) advs info = advs) ->
  discover_all hass advs = advs.
Proof.
  intros Hall. unfold discover_all, _async_current_ids. cbn [foldl].
  rewrite (foldl_discover_none _ _ advs) by apply Hall.
  apply foldl_discover_none, Hall.
Qed.

(** C8: when the scan of a fresh run finds no eligible event (each one is
    configured, unparsable or fails the transport rule, so the loop body
    adds nothing), the discovery step shows no form: it raises [AbortFlow],
    which the host reports as the terminal abort. *)
Theorem no_candidates_aborts
    (hass : Hass) (st : FlowState)
    (Hfresh : _discovered_advs st = [])
    (Hnone : forall c info,
        info ∈ async_discovered_service_info hass c ->
        discover_one (current_ids hass) [] info = []) :
  async_step_user hass None st
    = (st, Raise (AbortFlow "no_unconfigured_devices"))
  /\ reported (async_step_user hass None st)
    = Some (FlowAbort "no_unconfigured_devices").
Proof.
  assert (Hstep : async_step_user hass None st
                  = (st, Raise (AbortFlow "no_unconfigured_devices"))).
  { unfold async_step_user.
    erewrite bind_raise;
      [| apply discover_devices_empty; rewrite Hfresh;
         apply discover_all_none, Hnone].
    f_equal. destruct st; cbn in Hfresh; subst; reflexivity. }
  rewrite Hstep. split; reflexivity.
Qed.

(** C5: when the scan leaves exactly one candidate in the map, and that
    candidate is not configured, the discovery step is the branch decision
    taken on it: method choice for a lock, password entry for an encrypted
    device, confirmation otherwise.  The selection form is not shown. *)
Theorem single_candidate_skips_selection
    (hass : Hass) (st : FlowState) (key : string) (adv : SwitchBotAdvertisement)
    (Hone : discover_all hass (_discovered_advs st) = [(key, adv)])
    (Hnew : format_unique_id (address adv) ∉ current_ids hass) :
  let st' := selected adv (set_discovered_advs [(key, adv)] st) in
  async_step_user hass None st
    = (if bool_decide (modelName (data adv) = Some SwitchbotModel_LOCK)
       then async_step_lock_chose_method None st'
       else if isEncrypted (data adv)
       then async_step_password None st'
       else async_step_confirm None st')
  /\ (forall schema errors placeholders,
        snd (async_step_user hass None st)
        <> Ok (FlowForm "user" schema errors placeholders))
  /\ (forall name,
        name_from_discovery adv = Ok name ->
        exists schema errors,
          snd (async_step_user hass None st)
          = Ok (FlowForm
                  (if bool_decide (modelName (data adv) = Some SwitchbotModel_LOCK)
                   then "lock_chose_method"
                   else if isEncrypted (data adv) then "password" else "confirm")
                  schema errors [("name", name)])).
Proof.
  intros st'.
  assert (Hstep : async_step_user hass None st
     = (if bool_decide (modelName (data adv) = Some SwitchbotModel_LOCK)
        then async_step_lock_chose_method None st'
        else if isEncrypted (data adv)
        then async_step_password None st'
        else async_step_confirm None st')).
  { unfold async_step_user.
    erewrite bind_ok
      by (apply discover_devices_nonempty; rewrite Hone; discriminate).
    erewrite bind_ok by reflexivity.
    cbn [_discovered_advs set_discovered_advs]. rewrite Hone.
    rewrite bool_decide_eq_true_2 by reflexivity.
    erewrite bind_ok by (apply set_device_unconfigured; exact Hnew).
    destruct (bool_decide _); [reflexivity |].
    destruct (isEncrypted (data adv)); reflexivity. }
  rewrite Hstep. split; [reflexivity |].
  assert (Hsel : _discovered_adv st' = Some adv) by reflexivity.
  destruct (bool_decide (modelName (data adv) = Some SwitchbotModel_LOCK));
    [| destruct (isEncrypted (data adv))].
  - rewrite (lock_chose_method_form_eq _ _ Hsel). cbn [snd]. split.
    + intros schema errors placeholders.
      destruct (name_from_discovery adv); discriminate.
    + intros name ->. eauto.
  - rewrite (password_form _ _ Hsel). cbn [snd]. split.
    + intros schema errors placeholders.
      destruct (name_from_discovery adv); discriminate.
    + intros name ->. eauto.
  - rewrite (confirm_form _ _ Hsel). cbn [snd]. split.
    + intros schema errors placeholders.
      destruct (name_from_discovery adv); discriminate.
    + intros name ->. eauto.
Qed.

(** C6: selecting an encrypted candidate that is not a lock shows the
    password form, and whatever is then submitted is finalized without any
    call to a validating collaborator: the entry holds the submitted
    password, the address of the candidate and its sensor type. *)
Theorem encrypted_candidate_password_accepted
    (hass : Hass) (st : FlowState) (selection : gmap string value)
    (key : string) (adv : SwitchBotAdvertisement)
    (model_name sensor_type name : string)
    (Hkey : selection !! CONF_ADDRESS = Some (VStr key))
    (Hadv : OrdDict.lookup key (_discovered_advs st) = Some adv)
    (Hnew : format_unique_id (address adv) ∉ current_ids hass)
    (Hmodel : modelName (data adv) = Some model_name)
    (Hlock : model_name <> SwitchbotModel_LOCK)
    (Henc : isEncrypted (data adv) = true)
    (Hsupported : SUPPORTED_MODEL_TYPES !! model_name = Some sensor_type)
    (Hname : name_from_discovery adv = Ok name) :
  async_step_user hass (Some selection) st
    = (selected adv st,
       Ok (FlowForm "password" [(CONF_PASSWORD, FStr)] None [("name", name)]))
  /\ forall user_input,
      exists entry_data,
        async_step_password (Some user_input) (selected adv st)
          = (selected adv st, Ok (FlowCreateEntry name entry_data))
        /\ entry_data !! CONF_PASSWORD = user_input !! CONF_PASSWORD
        /\ entry_data !! CONF_ADDRESS = Some (VStr (address adv))
        /\ entry_data !! CONF_SENSOR_TYPE = Some (VStr sensor_type).
Proof.
  split.
  - unfold async_step_user.
    rewrite lift_bind. unfold PyVal.subscript. rewrite Hkey.
    erewrite bind_ok by reflexivity.
    rewrite lift_bind. unfold discovered_advs_getitem. rewrite Hadv.
    erewrite bind_ok by (apply set_device_unconfigured; exact Hnew).
    rewrite Hmodel, bool_decide_eq_false_2 by congruence.
    rewrite Henc, (password_form _ adv) by reflexivity.
    rewrite Hname. reflexivity.
  - intros user_input. eexists. split; [| split; [| split]].
    + unfold async_step_password. erewrite bind_ok by reflexivity.
      cbn [selected _discovered_adv set_unique_id set_discovered_adv].
      rewrite (create_entry_eq _ adv) by reflexivity.
      rewrite Hname, Hmodel, Hsupported. reflexivity.
    + rewrite !lookup_insert_ne by discriminate. reflexivity.
    + rewrite lookup_insert_ne by discriminate. apply lookup_insert_eq.
    + apply lookup_insert_eq.
Qed.

(** *** The lock steps *)

Lemma try_except_pass {A} (body handler : M A) st :
  (forall msg, snd (body st) <> Raise (RuntimeError msg)) ->
  try_except_RuntimeError body handler st = body st.
Proof.
  intros Hno. unfold try_except_RuntimeError.
  destruct (body st) as [st' [a | e]]; [reflexivity |].
  destruct e; try reflexivity. exfalso. exact (Hno msg eq_refl).
Qed.

Lemma try_except_caught {A} (body handler : M A) st st' msg :
  body st = (st', Raise (RuntimeError msg)) ->
  try_except_RuntimeError body handler st = handler st'.
Proof. intros H. unfold try_except_RuntimeError. rewrite H. reflexivity. Qed.

Lemma lock_key_form_eq errors adv st :
  lock_key_form errors adv st
  = (st,
     let? name := name_from_discovery adv in
     Ok (FlowForm "lock_key"
           [(CONF_KEY_ID, FStr); (CONF_ENCRYPTION_KEY, FStr)]
           (Some errors) [("name", name)])).
Proof.
  unfold lock_key_form. rewrite lift_bind.
  destruct (name_from_discovery adv); reflexivity.
Qed.

Lemma lock_auth_form_eq errors adv st :
  lock_auth_form errors adv st
  = (st,
     let? name := name_from_discovery adv in
     Ok (FlowForm "lock_auth"
           [(CONF_USERNAME, FStr); (CONF_PASSWORD, FStr)]
           (Some errors) [("name", name)])).
Proof.
  unfold lock_auth_form. rewrite lift_bind.
  destruct (name_from_discovery adv); reflexivity.
Qed.

Lemma lock_key_submit st adv ui :
  _discovered_adv st = Some adv ->
  async_step_lock_key (Some ui) st
  = if verify_encryption_key (device adv)
         (PyVal.get ui CONF_KEY_ID) (PyVal.get ui CONF_ENCRYPTION_KEY)
    then _async_create_entry_from_discovery ui st
    else lock_key_form
           (<[CONF_ENCRYPTION_KEY := "encryption_key_invalid"]>
              {[CONF_KEY_ID := "key_id_invalid"]}) adv st.
Proof.
  intros Hadv. unfold async_step_lock_key.
  erewrite bind_ok by reflexivity. rewrite Hadv.
  destruct (verify_encryption_key _ _ _); reflexivity.
Qed.

Lemma lock_key_no_runtime_error ui st msg :
  snd (async_step_lock_key ui st) <> Raise (RuntimeError msg).
Proof.
  destruct (_discovered_adv st) as [adv|] eqn:Hadv.
  - destruct ui as [ui|].
    + rewrite (lock_key_submit _ _ _ Hadv).
      destruct (verify_encryption_key _ _ _).
      * rewrite (create_entry_eq _ _ _ Hadv). cbn [snd].
        destruct (name_from_discovery adv) as [n | e] eqn:Hn.
        -- destruct (modelName (data adv)) as [m|]; [| discriminate].
           destruct (SUPPORTED_MODEL_TYPES !! m); discriminate.
        -- rewrite (name_from_discovery_raises _ _ Hn). discriminate.
      * rewrite lock_key_form_eq. cbn [snd].
        destruct (name_from_discovery adv) as [n | e] eqn:Hn; [discriminate |].
        rewrite (name_from_discovery_raises _ _ Hn). discriminate.
    + unfold async_step_lock_key. erewrite bind_ok by reflexivity.
      rewrite Hadv, lock_key_form_eq. cbn [snd].
      destruct (name_from_discovery adv) as [n | e] eqn:Hn; [discriminate |].
      rewrite (name_from_discovery_raises _ _ Hn). discriminate.
  - unfold async_step_lock_key. erewrite bind_ok by reflexivity.
    rewrite Hadv. discriminate.
Qed.

(** The credential step, by the outcome of the resolver. *)
Lemma lock_auth_submit st adv ui :
  _discovered_adv st = Some adv ->
  async_step_lock_auth (Some ui) st
  = match retrieve_lock_key (address adv)
            (PyVal.get ui CONF_USERNAME) (PyVal.get ui CONF_PASSWORD) with
    | Ok key_details => async_step_lock_key (Some key_details) st
    | Raise (RuntimeError _) =>
        lock_auth_form {[CONF_USERNAME := "auth_failed"]} adv st
    | Raise e => (st, Raise e)
    end.
Proof.
  intros Hadv. unfold async_step_lock_auth.
  erewrite bind_ok by reflexivity. rewrite Hadv.
  destruct (retrieve_lock_key _ _ _) as [kd | e] eqn:Hr.
  - rewrite try_except_pass; rewrite lift_bind; [reflexivity |].
    intros msg. apply lock_key_no_runtime_error.
  - destruct e;
      try (rewrite try_except_pass; rewrite lift_bind;
           [reflexivity | discriminate]).
    erewrite try_except_caught; [reflexivity |].
    rewrite lift_bind. reflexivity.
Qed.

Lemma retrieve_lock_key_bundle device_mac username password key_details :
  retrieve_lock_key device_mac username password = Ok key_details ->
  exists key_id key,
    key_details = <[CONF_ENCRYPTION_KEY := key]> {[CONF_KEY_ID := key_id]}.
Proof.
  unfold retrieve_lock_key. intros H.
  repeat case_match; try discriminate.
  injection H as <-. eauto.
Qed.

(** C3 (amended): the resolver signals an explicit rejection and any other
    failure of the authentication call with the same exception type and
    different messages; the credential step does not use the difference:
    for every [RuntimeError] of the resolver it shows the [lock_auth] form
    again with the one error [auth_failed] on the username field. *)
Theorem credential_failures_share_one_error
    (st : FlowState) (adv : SwitchBotAdvertisement)
    (ui_rejected ui_failed : gmap string value) (u_r u_f cause : string)
    (Hadv : _discovered_adv st = Some adv)
    (Hur : PyVal.get ui_rejected CONF_USERNAME = VStr u_r)
    (Huf : PyVal.get ui_failed CONF_USERNAME = VStr u_f)
    (Hrej : initiate_auth AppClientId (VStr u_r)
              (PyVal.get ui_rejected CONF_PASSWORD)
              (hmac_sha256_b64 AppClientSecret (u_r +:+ AppClientId))
            = AuthNotAuthorized)
    (Hfail : initiate_auth AppClientId (VStr u_f)
               (PyVal.get ui_failed CONF_PASSWORD)
               (hmac_sha256_b64 AppClientSecret (u_f +:+ AppClientId))
             = AuthRaises cause) :
  retrieve_lock_key (address adv)
    (PyVal.get ui_rejected CONF_USERNAME) (PyVal.get ui_rejected CONF_PASSWORD)
    = Raise (RuntimeError "Failed to authenticate")
  /\ retrieve_lock_key (address adv)
       (PyVal.get ui_failed CONF_USERNAME) (PyVal.get ui_failed CONF_PASSWORD)
     = Raise (RuntimeError "Unexpected error during authentication")
  /\ async_step_lock_auth (Some ui_rejected) st
     = lock_auth_form {[CONF_USERNAME := "auth_failed"]} adv st
  /\ async_step_lock_auth (Some ui_failed) st
     = lock_auth_form {[CONF_USERNAME := "auth_failed"]} adv st
  /\ (forall ui msg,
        retrieve_lock_key (address adv)
          (PyVal.get ui CONF_USERNAME) (PyVal.get ui CONF_PASSWORD)
        = Raise (RuntimeError msg) ->
        async_step_lock_auth (Some ui) st
        = lock_auth_form {[CONF_USERNAME := "auth_failed"]} adv st).
Proof.
  assert (Hr : retrieve_lock_key (address adv)
                 (PyVal.get ui_rejected CONF_USERNAME)
                 (PyVal.get ui_rejected CONF_PASSWORD)
               = Raise (RuntimeError "Failed to authenticate")).
  { unfold retrieve_lock_key. rewrite Hur, Hrej. reflexivity. }
  assert (Hf : retrieve_lock_key (address adv)
                 (PyVal.get ui_failed CONF_USERNAME)
                 (PyVal.get ui_failed CONF_PASSWORD)
               = Raise (RuntimeError "Unexpected error during authentication")).
  { unfold retrieve_lock_key. rewrite Huf, Hfail. reflexivity. }
  repeat split; try assumption.
  - rewrite (lock_auth_submit _ _ _ Hadv), Hr. reflexivity.
  - rewrite (lock_auth_submit _ _ _ Hadv), Hf. reflexivity.
  - intros ui msg Hmsg. rewrite (lock_auth_submit _ _ _ Hadv), Hmsg. reflexivity.
Qed.

(** C7 (amended): a key bundle obtained from the resolver is handed to the
    secret step, which verifies it against the device.  When the
    verification succeeds the run is finalized with the key id and the key
    in the persisted data; when it fails the [lock_key] form is shown with
    its two errors and nothing is persisted. *)
Theorem credential_exchange_finalizes_after_verification
    (st : FlowState) (adv : SwitchBotAdvertisement)
    (ui key_details : gmap string value) (model_name sensor_type name : string)
    (Hadv : _discovered_adv st = Some adv)
    (Hkeys : retrieve_lock_key (address adv)
               (PyVal.get ui CONF_USERNAME) (PyVal.get ui CONF_PASSWORD)
             = Ok key_details)
    (Hmodel : modelName (data adv) = Some model_name)
    (Hsupported : SUPPORTED_MODEL_TYPES !! model_name = Some sensor_type)
    (Hname : name_from_discovery adv = Ok name) :
  async_step_lock_auth (Some ui) st = async_step_lock_key (Some key_details) st
  /\ (verify_encryption_key (device adv)
        (PyVal.get key_details CONF_KEY_ID)
        (PyVal.get key_details CONF_ENCRYPTION_KEY) = true ->
      exists key_id key entry_data,
        key_details = <[CONF_ENCRYPTION_KEY := key]> {[CONF_KEY_ID := key_id]}
        /\ async_step_lock_auth (Some ui) st
           = (st, Ok (FlowCreateEntry name entry_data))
        /\ entry_data !! CONF_KEY_ID = Some key_id
        /\ entry_data !! CONF_ENCRYPTION_KEY = Some key
        /\ entry_data !! CONF_ADDRESS = Some (VStr (address adv))
        /\ entry_data !! CONF_SENSOR_TYPE = Some (VStr sensor_type))
  /\ (verify_encryption_key (device adv)
        (PyVal.get key_details CONF_KEY_ID)
        (PyVal.get key_details CONF_ENCRYPTION_KEY) = false ->
      async_step_lock_auth (Some ui) st
      = (st,
         Ok (FlowForm "lock_key"
               [(CONF_KEY_ID, FStr); (CONF_ENCRYPTION_KEY, FStr)]
               (Some (<[CONF_ENCRYPTION_KEY := "encryption_key_invalid"]>
                        {[CONF_KEY_ID := "key_id_invalid"]}))
               [("name", name)]))).
Proof.
  assert (Hstep : async_step_lock_auth (Some ui) st
                  = async_step_lock_key (Some key_details) st).
  { rewrite (lock_auth_submit _ _ _ Hadv), Hkeys. reflexivity. }
  rewrite Hstep, (lock_key_submit _ _ _ Hadv).
  split; [reflexivity |]. split; intros Hverify; rewrite Hverify.
  - destruct (retrieve_lock_key_bundle _ _ _ _ Hkeys) as (key_id & key & ->).
    exists key_id, key. eexists. split; [reflexivity |]. split.
    + rewrite (create_entry_eq _ _ _ Hadv), Hname, Hmodel, Hsupported.
      reflexivity.
    + split; [| split; [| split]].
      * rewrite !lookup_insert_ne by discriminate. apply lookup_singleton_eq.
      * rewrite !lookup_insert_ne by discriminate. apply lookup_insert_eq.
      * rewrite lookup_insert_ne by discriminate. apply lookup_insert_eq.
      * apply lookup_insert_eq.
  - rewrite lock_key_form_eq, Hname. reflexivity.
Qed.

(** *** Repeated failed submissions *)

Lemma submit_all_same {I} (step : I -> M FlowResult) inputs st r :
  Forall (fun i => step i st = (st, r)) inputs ->
  submit_all step inputs st = (st, replicate (length inputs) r).
Proof.
  induction 1 as [| i inputs Hi _ IH]; [reflexivity |].
  cbn [submit_all length replicate]. rewrite Hi, IH. reflexivity.
Qed.

(** Keys that the device does not accept: each submission shows the
    [lock_key] form with its two errors and leaves the state alone. *)
Lemma failed_key_submissions_rerender st adv inputs :
  _discovered_adv st = Some adv ->
  Forall (fun ui =>
            verify_encryption_key (device adv)
              (PyVal.get ui CONF_KEY_ID) (PyVal.get ui CONF_ENCRYPTION_KEY)
            = false) inputs ->
  submit_all (fun ui => async_step_lock_key (Some ui)) inputs st
  = (st,
     replicate (length inputs)
       (let? name := name_from_discovery adv in
        Ok (FlowForm "lock_key"
              [(CONF_KEY_ID, FStr); (CONF_ENCRYPTION_KEY, FStr)]
              (Some (<[CONF_ENCRYPTION_KEY := "encryption_key_invalid"]>
                       {[CONF_KEY_ID := "key_id_invalid"]}))
              [("name", name)]))).
Proof.
  intros Hadv Hall. apply submit_all_same.
  eapply Forall_impl; [exact Hall |]. intros ui Hverify. cbn beta.
  rewrite (lock_key_submit _ _ _ Hadv), Hverify. apply lock_key_form_eq.
Qed.

(** Credentials for which the resolver raises [RuntimeError]: each
    submission shows the [lock_auth] form with [auth_failed] and leaves the
    state alone. *)
Lemma failed_credential_submissions_rerender st adv inputs :
  _discovered_adv st = Some adv ->
  Forall (fun ui =>
            exists msg,
              retrieve_lock_key (address adv)
                (PyVal.get ui CONF_USERNAME) (PyVal.get ui CONF_PASSWORD)
              = Raise (RuntimeError msg)) inputs ->
  submit_all (fun ui => async_step_lock_auth (Some ui)) inputs st
  = (st,
     replicate (length inputs)
       (let? name := name_from_discovery adv in
        Ok (FlowForm "lock_auth"
              [(CONF_USERNAME, FStr); (CONF_PASSWORD, FStr)]
              (Some {[CONF_USERNAME := "auth_failed"]})
              [("name", name)]))).
Proof.
  intros Hadv Hall. apply submit_all_same.
  eapply Forall_impl; [exact Hall |]. intros ui [msg Hmsg]. cbn beta.
  rewrite (lock_auth_submit _ _ _ Hadv), Hmsg. apply lock_auth_form_eq.
Qed.

(** *** Further properties of the scan *)

Lemma OrdDict_lookup_app {V} k (d d' : list (string * V)) :
  OrdDict.lookup k (d ++ d')%list
  = match OrdDict.lookup k d with
    | Some v => Some v
    | None => OrdDict.lookup k d'
    end.
Proof.
  induction d as [| [k0 v0] d IH]; [reflexivity |].
  cbn [app OrdDict.lookup]. destruct (String.eqb k k0); [reflexivity | exact IH].
Qed.

Lemma OrdDict_mem_app {V} k (d d' : list (string * V)) :
  OrdDict.mem k (d ++ d')%list = OrdDict.mem k d || OrdDict.mem k d'.
Proof.
  unfold OrdDict.mem. rewrite OrdDict_lookup_app.
  destruct (OrdDict.lookup k d) as [v|].
  - rewrite !bool_decide_eq_true_2 by (eexists; reflexivity). reflexivity.
  - rewrite (bool_decide_eq_false_2 (is_Some None)) by (intros [? [=]]).
    reflexivity.
Qed.

Lemma OrdDict_mem_keys {V} k (d : list (string * V)) :
  OrdDict.mem k d = true <-> k ∈ d.*1.
Proof.
  unfold OrdDict.mem. rewrite bool_decide_eq_true.
  induction d as [| [k0 v0] d IH]; cbn [OrdDict.lookup fmap list_fmap fst].
  - split; [intros [? [=]] | intros H; inversion H].
  - rewrite elem_of_cons. destruct (String.eqb k k0) eqn:Hk.
    + apply String.eqb_eq in Hk. split; [intros _; left; exact Hk | eauto].
    + apply String.eqb_neq in Hk. rewrite IH.
      split; [intros H; right; exact H | intros [H | H]; [contradiction | exact H]].
Qed.

Lemma OrdDict_lookup_elem {V} k (v : V) d :
  OrdDict.lookup k d = Some v -> (k, v) ∈ d.
Proof.
  induction d as [| [k0 v0] d IH]; cbn [OrdDict.lookup]; [discriminate |].
  destruct (String.eqb k k0) eqn:Hk.
  - apply String.eqb_eq in Hk. intros [= ->]. subst k0. apply list_elem_of_here.
  - intros H. apply list_elem_of_further, IH, H.
Qed.

(** The loop body either leaves the map alone or appends the parsed
    advertisement of an unconfigured, not yet discovered address that passes
    the transport rule. *)
Lemma discover_one_cases current_addresses advs info :
  discover_one current_addresses advs info = advs
  \/ exists parsed,
       (format_unique_id (info_address info) ∉ current_addresses)
       /\ OrdDict.mem (info_address info) advs = false
       /\ parse_advertisement_data (info_device info) (info_advertisement info)
          = Some parsed
       /\ (connectable info
           && in_table (modelName (data parsed)) CONNECTABLE_SUPPORTED_MODEL_TYPES)
          || in_table (modelName (data parsed))
               NON_CONNECTABLE_SUPPORTED_MODEL_TYPES = true
       /\ discover_one current_addresses advs info
          = (advs ++ [(info_address info, parsed)])%list.
Proof.
  destruct (decide (format_unique_id (info_address info) ∈ current_addresses))
    as [Hold | Hnew].
  { left. unfold discover_one. cbv zeta.
    rewrite bool_decide_eq_true_2 by exact Hold. reflexivity. }
  destruct (OrdDict.mem (info_address info) advs) eqn:Hmem.
  { left. unfold discover_one. cbv zeta. rewrite Hmem, orb_true_r. reflexivity. }
  rewrite discover_one_eq by assumption.
  destruct (parse_advertisement_data _ _) as [parsed|]; [| left; reflexivity].
  destruct (_ || _) eqn:Hrule; [| left; reflexivity].
  right. exists parsed. repeat split; assumption.
Qed.

Lemma discover_one_known current_addresses advs info :
  OrdDict.mem (info_address info) advs = true ->
  discover_one current_addresses advs info = advs.
Proof.
  intros Hmem. unfold discover_one. cbv zeta. rewrite Hmem, orb_true_r.
  reflexivity.
Qed.

(** After the loop body has seen an event, its address is in the map, or
    the event is one that no map would take. *)
Lemma discover_one_settled current_addresses advs info :
  OrdDict.mem (info_address info) (discover_one current_addresses advs info) = true
  \/ forall advs', discover_one current_addresses advs' info = advs'.
Proof.
  destruct (discover_one_cases current_addresses advs info)
    as [Hsame | (parsed & Hnew & Hmem & Hparsed & Hrule & Hadd)].
  - destruct (OrdDict.mem (info_address info) advs) eqn:Hmem;
      [left; rewrite Hsame; exact Hmem |].
    right. intros advs'. unfold discover_one in *. cbv zeta in *.
    destruct (bool_decide _); [reflexivity |]. rewrite Hmem in Hsame.
    cbn [orb] in Hsame.
    destruct (OrdDict.mem (info_address info) advs'); [reflexivity |]. cbn [orb].
    destruct (parse_advertisement_data _ _) as [parsed|]; [| reflexivity].
    destruct (_ || _); [| reflexivity].
    exfalso. exact (OrdDict_set_fresh_neq _ _ _ Hmem Hsame).
  - left. rewrite Hadd, OrdDict_mem_app. apply orb_true_iff. right.
    unfold OrdDict.mem. cbn [OrdDict.lookup]. rewrite String.eqb_refl.
    apply bool_decide_eq_true_2. eexists; reflexivity.
Qed.

Lemma discover_all_foldl hass advs :
  discover_all hass advs
  = foldl (discover_one (current_ids hass)) advs
      (async_discovered_service_info hass true
         ++ async_discovered_service_info hass false)%list.
Proof. unfold discover_all, _async_current_ids. rewrite foldl_app. reflexivity. Qed.

Lemma foldl_discover_extends current_addresses infos advs :
  exists added,
    foldl (discover_one current_addresses) advs infos = (advs ++ added)%list
    /\ (NoDup advs.*1 -> NoDup (advs ++ added)%list.*1)
    /\ Forall
         (fun '(k, adv) =>
            exists info,
              info ∈ infos /\ info_address info = k
              /\ (format_unique_id k ∉ current_addresses)
              /\ parse_advertisement_data (info_device info)
                   (info_advertisement info) = Some adv
              /\ (connectable info
                  && in_table (modelName (data adv))
                       CONNECTABLE_SUPPORTED_MODEL_TYPES)
                 || in_table (modelName (data adv))
                      NON_CONNECTABLE_SUPPORTED_MODEL_TYPES = true)
         added.
Proof.
  revert advs. induction infos as [| info infos IH]; intros advs.
  - exists []. rewrite app_nil_r. split; [reflexivity |].
    split; [intros H; exact H | constructor].
  - cbn [foldl].
    destruct (discover_one_cases current_addresses advs info)
      as [-> | (parsed & Hnew & Hmem & Hparsed & Hrule & ->)].
    + destruct (IH advs) as (added & Heq & Hnodup & Hall).
      exists added. split; [exact Heq |]. split; [exact Hnodup |].
      eapply Forall_impl; [exact Hall |]. intros [k adv] (i & Hin & Hrest).
      exists i. split; [apply list_elem_of_further, Hin | exact Hrest].
    + destruct (IH (advs ++ [(info_address info, parsed)])%list)
        as (added & Heq & Hnodup & Hall).
      exists ((info_address info, parsed) :: added).
      rewrite Heq, <- app_assoc. split; [reflexivity |]. split.
      * intros Hnd.
        replace (advs ++ (info_address info, parsed) :: added)%list
          with ((advs ++ [(info_address info, parsed)]) ++ added)%list
          by (rewrite <- app_assoc; reflexivity).
        apply Hnodup.
        rewrite fmap_app. apply NoDup_app. split; [exact Hnd |]. split.
        -- intros k Hk Hk'. cbn in Hk'. apply list_elem_of_singleton in Hk'.
           subst k. apply OrdDict_mem_keys in Hk. congruence.
        -- cbn. apply NoDup_singleton.
      * constructor.
        -- exists info. split; [apply list_elem_of_here |]. repeat split; assumption.
        -- eapply Forall_impl; [exact Hall |]. intros [k adv] (i & Hin & Hrest).
           exists i. split; [apply list_elem_of_further, Hin | exact Hrest].
Qed.

(** X14: a scan keeps every candidate it already has, in place, and only
    appends; the addresses of the map stay pairwise distinct. *)
Theorem scan_extends_map (hass : Hass)
    (advs : list (string * SwitchBotAdvertisement))
    (Hdistinct : NoDup advs.*1) :
  (exists added, discover_all hass advs = (advs ++ added)%list)
  /\ NoDup (discover_all hass advs).*1
  /\ (forall k adv,
        OrdDict.lookup k advs = Some adv ->
        OrdDict.lookup k (discover_all hass advs) = Some adv).
Proof.
  rewrite discover_all_foldl.
  destruct (foldl_discover_extends (current_ids hass)
              (async_discovered_service_info hass true
                 ++ async_discovered_service_info hass false)%list advs)
    as (added & -> & Hnodup & _).
  split; [eauto |]. split; [apply Hnodup, Hdistinct |].
  intros k adv Hk. rewrite OrdDict_lookup_app, Hk. reflexivity.
Qed.

(** X15: whatever a scan adds is the parsed advertisement of a cached
    event for that address, whose identity is not configured and which
    passes the transport rule. *)
Theorem scan_adds_only_eligible (hass : Hass)
    (advs : list (string * SwitchBotAdvertisement))
    (k : string) (adv : SwitchBotAdvertisement)
    (Hfound : (k, adv) ∈ discover_all hass advs)
    (Hnew : (k, adv) ∉ advs) :
  exists c info,
    info ∈ async_discovered_service_info hass c
    /\ info_address info = k
    /\ (format_unique_id k ∉ current_ids hass)
    /\ parse_advertisement_data (info_device info) (info_advertisement info)
       = Some adv
    /\ (connectable info
        && in_table (modelName (data adv)) CONNECTABLE_SUPPORTED_MODEL_TYPES)
       || in_table (modelName (data adv)) NON_CONNECTABLE_SUPPORTED_MODEL_TYPES
       = true.
Proof.
  rewrite discover_all_foldl in Hfound.
  destruct (foldl_discover_extends (current_ids hass)
              (async_discovered_service_info hass true
                 ++ async_discovered_service_info hass false)%list advs)
    as (added & Heq & _ & Hall).
  rewrite Heq in Hfound. apply elem_of_app in Hfound as [Hin | Hin];
    [contradiction |].
  rewrite Forall_forall in Hall. destruct (Hall _ Hin) as (info & Hi & Hrest).
  apply elem_of_app in Hi as [Hi | Hi]; [exists true | exists false];
    exists info; (split; [exact Hi | exact Hrest]).
Qed.

Lemma discover_one_keeps current_addresses advs info k :
  OrdDict.mem k advs = true ->
  OrdDict.mem k (discover_one current_addresses advs info) = true.
Proof.
  intros Hk.
  destruct (discover_one_cases current_addresses advs info)
    as [-> | (parsed & _ & _ & _ & _ & ->)]; [exact Hk |].
  rewrite OrdDict_mem_app, Hk. reflexivity.
Qed.

Lemma foldl_discover_keeps current_addresses infos advs k :
  OrdDict.mem k advs = true ->
  OrdDict.mem k (foldl (discover_one current_addresses) advs infos) = true.
Proof.
  revert advs. induction infos as [| info infos IH]; intros advs Hk; [exact Hk |].
  cbn [foldl]. apply IH, discover_one_keeps, Hk.
Qed.

Lemma foldl_discover_settled current_addresses infos advs info :
  info ∈ infos ->
  OrdDict.mem (info_address info)
    (foldl (discover_one current_addresses) advs infos) = true
  \/ forall advs', discover_one current_addresses advs' info = advs'.
Proof.
  revert advs. induction infos as [| i infos IH]; intros advs Hin;
    [inversion Hin |].
  cbn [foldl]. apply elem_of_cons in Hin as [-> | Hin]; [| apply IH, Hin].
  destruct (discover_one_settled current_addresses advs i) as [Hmem | Hnever];
    [left; apply foldl_discover_keeps, Hmem | right; exact Hnever].
Qed.

(** X16: a scan misses no eligible event: the address of every cached
    event that is not configured, parses and passes the transport rule is
    in the map afterwards. *)
Theorem scan_finds_every_eligible (hass : Hass)
    (advs : list (string * SwitchBotAdvertisement))
    (c : bool) (info : BluetoothServiceInfoBleak) (parsed : SwitchBotAdvertisement)
    (Hcached : info ∈ async_discovered_service_info hass c)
    (Hnew : format_unique_id (info_address info) ∉ current_ids hass)
    (Hparsed : parse_advertisement_data (info_device info)
                 (info_advertisement info) = Some parsed)
    (Hrule : (connectable info
              && in_table (modelName (data parsed))
                   CONNECTABLE_SUPPORTED_MODEL_TYPES)
             || in_table (modelName (data parsed))
                  NON_CONNECTABLE_SUPPORTED_MODEL_TYPES = true) :
  OrdDict.mem (info_address info) (discover_all hass advs) = true.
Proof.
  rewrite discover_all_foldl.
  destruct (foldl_discover_settled (current_ids hass)
              (async_discovered_service_info hass true
                 ++ async_discovered_service_info hass false)%list advs info)
    as [Hmem | Hnever]; [| exact Hmem |].
  - apply elem_of_app. destruct c; [left | right]; exact Hcached.
  - exfalso. specialize (Hnever []).
    rewrite discover_one_eq, Hparsed, Hrule in Hnever by (exact Hnew || reflexivity).
    discriminate Hnever.
Qed.

Lemma foldl_discover_fixed current_addresses infos advs :
  (forall info,
      info ∈ infos ->
      OrdDict.mem (info_address info) advs = true
      \/ forall advs', discover_one current_addresses advs' info = advs') ->
  foldl (discover_one current_addresses) advs infos = advs.
Proof.
  intros Hall. apply foldl_discover_none. intros info Hin.
  destruct (Hall info Hin) as [Hmem | Hnever];
    [apply discover_one_known, Hmem | apply Hnever].
Qed.

(** X17: scanning again, with the same store and the same cached events,
    changes nothing. *)
Theorem rescan_changes_nothing (hass : Hass)
    (advs : list (string * SwitchBotAdvertisement)) :
  discover_all hass (discover_all hass advs) = discover_all hass advs.
Proof.
  rewrite (discover_all_foldl hass (discover_all hass advs)).
  apply foldl_discover_fixed. intros info Hin.
  rewrite discover_all_foldl. apply foldl_discover_settled, Hin.
Qed.

(** *** Further properties of the resolver *)

Lemma ne_int_false v n : PyVal.ne_int v n = false -> v = VInt n.
Proof.
  destruct v; cbn; try discriminate. intros H. apply negb_false_iff in H.
  apply Z.eqb_eq in H. subst. reflexivity.
Qed.

Lemma getitem_contains v k x :
  PyVal.getitem v k = Ok x -> v <> VNone /\ PyVal.contains k v = Ok true.
Proof.
  destruct v; cbn [PyVal.getitem PyVal.contains]; try discriminate.
  destruct (PyVal.assoc k items) eqn:Hk; [| discriminate]. intros _.
  split; [discriminate |]. rewrite bool_decide_eq_true_2 by eauto. reflexivity.
Qed.

(** X5: the resolver returns a key bundle exactly when the username is a
    string, the identity service answers with an access token, and the key
    service, asked with that token for the normalized address, answers with
    status code 100 and a communication key; the bundle is the id and the
    key of that answer. *)
Theorem retrieve_lock_key_success
    (device_mac : string) (username password : value)
    (key_details : gmap string value) :
  retrieve_lock_key device_mac username password = Ok key_details
  <-> exists u auth_response result access_token content reply body
        communication_key key_id key,
        username = VStr u
        /\ initiate_auth AppClientId username password
             (hmac_sha256_b64 AppClientSecret (u +:+ AppClientId))
           = AuthReturns auth_response
        /\ PyVal.getitem auth_response "AuthenticationResult" = Ok result
        /\ PyVal.getitem result "AccessToken" = Ok access_token
        /\ requests_post
             (SWITCHBOT_INTERNAL_API_BASE_URL
                +:+ "/developStage/keys/v1/communicate")
             access_token
             (PyStr.upper (PyStr.replace "-" "" (PyStr.replace ":" "" device_mac)))
           = Ok content
        /\ json_loads content = Ok reply
        /\ PyVal.getitem reply "statusCode" = Ok (VInt 100)
        /\ PyVal.getitem reply "body" = Ok body
        /\ PyVal.getitem body "communicationKey" = Ok communication_key
        /\ PyVal.getitem communication_key "keyId" = Ok key_id
        /\ PyVal.getitem communication_key "key" = Ok key
        /\ key_details = <[CONF_ENCRYPTION_KEY := key]> {[CONF_KEY_ID := key_id]}.
Proof.
  split.
  - unfold retrieve_lock_key. intros H.
    repeat case_match; try discriminate; simplify_eq;
      repeat match goal with
             | Hne : PyVal.ne_int _ 100 = false |- _ =>
                 apply ne_int_false in Hne; subst
             end;
      do 10 eexists; repeat (split; [eassumption || reflexivity |]);
      reflexivity.
  - intros (u & auth_response & result & access_token & content & reply & body
            & communication_key & key_id & key & -> & Hauth & Hresult & Htoken
            & Hpost & Hloads & Hstatus & Hbody & Hck & Hid & Hkey & ->).
    unfold retrieve_lock_key. rewrite Hauth.
    destruct (getitem_contains _ _ _ Hresult) as [Hnone Hin].
    destruct (getitem_contains _ _ _ Htoken) as [_ Hin'].
    rewrite Hin, Hresult, Hin'. cbn [negb].
    destruct auth_response; [congruence | ..];
      rewrite Htoken, Hpost, Hloads, Hstatus; cbn [PyVal.ne_int Z.eqb negb];
      rewrite Hbody, Hck, Hid, Hkey; reflexivity.
Qed.

(** *** Further properties of the steps *)



Lemma lock_chose_method_submit st adv ui :
  _discovered_adv st = Some adv ->
  async_step_lock_chose_method (Some ui) st
  = (if PyVal.eq_str (PyVal.get ui "method") "login_password"
     then lock_auth_form ∅ adv st
     else if PyVal.eq_str (PyVal.get ui "method") "encryption_key"
     then lock_key_form ∅ adv st
     else lock_chose_method_form adv st).
Proof.
  intros Hadv. unfold async_step_lock_chose_method.
  erewrite bind_ok by reflexivity. rewrite Hadv. cbv zeta.
  destruct (PyVal.eq_str _ "login_password").
  - unfold async_step_lock_auth. erewrite bind_ok by reflexivity.
    rewrite Hadv. reflexivity.
  - destruct (PyVal.eq_str _ "encryption_key"); [| reflexivity].
    unfold async_step_lock_key. erewrite bind_ok by reflexivity.
    rewrite Hadv. reflexivity.
Qed.

Lemma lock_chose_method_form_state adv st :
  lock_chose_method_form adv st
  = (st,
     let? name := name_from_discovery adv in
     Ok (FlowForm "lock_chose_method"
           [("method",
              FIn [("login_password", "SwitchBot App login and password");
                   ("encryption_key", "Lock encryption key")])]
           None [("name", name)])).
Proof.
  unfold lock_chose_method_form. rewrite lift_bind.
  destruct (name_from_discovery adv); reflexivity.
Qed.

(** X8: the method choice only dispatches.  With ["login_password"] it is
    the empty credential form, with ["encryption_key"] the empty key form,
    with anything else (or nothing) its own form again; it never changes
    the state of the run. *)
Theorem lock_chose_method_dispatches
    (st : FlowState) (adv : SwitchBotAdvertisement) (ui : gmap string value)
    (Hadv : _discovered_adv st = Some adv) :
  async_step_lock_chose_method (Some ui) st
  = (if PyVal.eq_str (PyVal.get ui "method") "login_password"
     then async_step_lock_auth None st
     else if PyVal.eq_str (PyVal.get ui "method") "encryption_key"
     then async_step_lock_key None st
     else async_step_lock_chose_method None st)
  /\ fst (async_step_lock_chose_method (Some ui) st) = st
  /\ (forall name,
        name_from_discovery adv = Ok name ->
        exists schema errors,
          snd (async_step_lock_chose_method (Some ui) st)
          = Ok (FlowForm
                  (if PyVal.eq_str (PyVal.get ui "method") "login_password"
                   then "lock_auth"
                   else if PyVal.eq_str (PyVal.get ui "method") "encryption_key"
                   then "lock_key" else "lock_chose_method")
                  schema errors [("name", name)])).
Proof.
  assert (Hauth : async_step_lock_auth None st = lock_auth_form ∅ adv st).
  { unfold async_step_lock_auth. erewrite bind_ok by reflexivity.
    rewrite Hadv. reflexivity. }
  assert (Hkey : async_step_lock_key None st = lock_key_form ∅ adv st).
  { unfold async_step_lock_key. erewrite bind_ok by reflexivity.
    rewrite Hadv. reflexivity. }
  rewrite (lock_chose_method_submit _ _ _ Hadv), Hauth, Hkey,
    (lock_chose_method_form_eq _ _ Hadv), lock_chose_method_form_state,
    lock_auth_form_eq, lock_key_form_eq.
  split; [reflexivity |]. split.
  - destruct (PyVal.eq_str _ "login_password"); [reflexivity |].
    destruct (PyVal.eq_str _ "encryption_key"); reflexivity.
  - intros name ->.
    destruct (PyVal.eq_str _ "login_password"); [cbn; eauto |].
    destruct (PyVal.eq_str _ "encryption_key"); cbn; eauto.
Qed.

(** X9: the entry made from a discovery holds the submitted fields, except
    that the address and the sensor type are those of the selected
    advertisement, whatever was submitted under these two names. *)
Theorem create_entry_merges_input
    (st : FlowState) (adv : SwitchBotAdvertisement)
    (user_input : gmap string value) (model_name sensor_type name : string)
    (Hadv : _discovered_adv st = Some adv)
    (Hmodel : modelName (data adv) = Some model_name)
    (Hsupported : SUPPORTED_MODEL_TYPES !! model_name = Some sensor_type)
    (Hname : name_from_discovery adv = Ok name) :
  exists entry_data,
    _async_create_entry_from_discovery user_input st
      = (st, Ok (FlowCreateEntry name entry_data))
    /\ entry_data !! CONF_ADDRESS = Some (VStr (address adv))
    /\ entry_data !! CONF_SENSOR_TYPE = Some (VStr sensor_type)
    /\ (forall k,
          k <> CONF_ADDRESS -> k <> CONF_SENSOR_TYPE ->
          entry_data !! k = user_input !! k)
    /\ dom entry_data = dom user_input ∪ {[CONF_ADDRESS; CONF_SENSOR_TYPE]}.
Proof.
  eexists. split; [| split; [| split; [| split]]].
  - rewrite (create_entry_eq _ _ _ Hadv), Hname, Hmodel, Hsupported. reflexivity.
  - rewrite lookup_insert_ne by discriminate. apply lookup_insert_eq.
  - apply lookup_insert_eq.
  - intros k Ha Hs. rewrite !lookup_insert_ne by congruence. reflexivity.
  - rewrite !dom_insert_L. apply set_eq. intros k.
    rewrite !elem_of_union, !elem_of_singleton.
    split; [intros [H | [H | H]] | intros [H | [H | H]]]; auto.
Qed.

(** X10: making the entry succeeds exactly when a device is selected, its
    address has a separator and its model is in the table of supported
    models; it fails with [AssertionError], [IndexError] or [KeyError]
    otherwise, and never changes the state of the run. *)
Theorem create_entry_succeeds_iff
    (st : FlowState) (user_input : gmap string value) :
  fst (_async_create_entry_from_discovery user_input st) = st
  /\ ((exists title entry_data,
         snd (_async_create_entry_from_discovery user_input st)
         = Ok (FlowCreateEntry title entry_data))
      <-> exists adv name model_name,
            _discovered_adv st = Some adv
            /\ name_from_discovery adv = Ok name
            /\ modelName (data adv) = Some model_name
            /\ is_Some (SUPPORTED_MODEL_TYPES !! model_name))
  /\ (_discovered_adv st = None ->
      snd (_async_create_entry_from_discovery user_input st)
      = Raise AssertionError)
  /\ (forall adv name,
        _discovered_adv st = Some adv ->
        name_from_discovery adv = Ok name ->
        in_table (modelName (data adv)) SUPPORTED_MODEL_TYPES = false ->
        snd (_async_create_entry_from_discovery user_input st)
        = Raise (KeyError (VStr (default "modelName" (modelName (data adv)))))).
Proof.
  destruct (_discovered_adv st) as [adv|] eqn:Hadv.
  - rewrite (create_entry_eq _ _ _ Hadv). cbn [fst snd].
    split; [reflexivity |]. split; [| split; [discriminate |]].
    + split.
      * intros (title & entry_data & H). exists adv.
        destruct (name_from_discovery adv) as [name|]; [| discriminate].
        destruct (modelName (data adv)) as [m|]; [| discriminate].
        destruct (SUPPORTED_MODEL_TYPES !! m) eqn:Hm; [| discriminate].
        exists name, m. rewrite Hm. eauto.
      * intros (adv' & name & m & [= <-] & -> & -> & [t ->]). eauto.
    + intros adv' name [= <-] -> Htable. unfold in_table in Htable.
      destruct (modelName (data adv)) as [m|]; [| reflexivity].
      apply bool_decide_eq_false in Htable.
      destruct (SUPPORTED_MODEL_TYPES !! m) eqn:Hm; [| reflexivity].
      exfalso. apply Htable. eauto.
  - unfold _async_create_entry_from_discovery.
    erewrite bind_ok by reflexivity. rewrite Hadv. cbn [fst snd raise].
    split; [reflexivity |]. split; [| split; [reflexivity | discriminate]].
    split; [intros (? & ? & [=]) | intros (? & ? & ? & [=] & _)].
Qed.

Lemma create_entry_state user_input st :
  fst (_async_create_entry_from_discovery user_input st) = st.
Proof.
  destruct (_discovered_adv st) as [adv|] eqn:Hadv.
  - rewrite (create_entry_eq _ _ _ Hadv). reflexivity.
  - unfold _async_create_entry_from_discovery.
    erewrite bind_ok by reflexivity. rewrite Hadv. reflexivity.
Qed.

Lemma lock_key_state user_input st :
  fst (async_step_lock_key user_input st) = st.
Proof.
  destruct (_discovered_adv st) as [adv|] eqn:Hadv.
  - destruct user_input as [ui|].
    + rewrite (lock_key_submit _ _ _ Hadv).
      destruct (verify_encryption_key _ _ _);
        [apply create_entry_state | rewrite lock_key_form_eq; reflexivity].
    + unfold async_step_lock_key. erewrite bind_ok by reflexivity.
      rewrite Hadv, lock_key_form_eq. reflexivity.
  - unfold async_step_lock_key. erewrite bind_ok by reflexivity.
    rewrite Hadv. reflexivity.
Qed.

Lemma lock_auth_state user_input st :
  fst (async_step_lock_auth user_input st) = st.
Proof.
  destruct (_discovered_adv st) as [adv|] eqn:Hadv.
  - destruct user_input as [ui|].
    + rewrite (lock_auth_submit _ _ _ Hadv).
      destruct (retrieve_lock_key _ _ _) as [kd | e]; [apply lock_key_state |].
      destruct e; try reflexivity. rewrite lock_auth_form_eq. reflexivity.
    + unfold async_step_lock_auth. erewrite bind_ok by reflexivity.
      rewrite Hadv, lock_auth_form_eq. reflexivity.
  - unfold async_step_lock_auth. erewrite bind_ok by reflexivity.
    rewrite Hadv. reflexivity.
Qed.

Lemma password_state user_input st :
  fst (async_step_password user_input st) = st.
Proof.
  destruct user_input as [ui|].
  - unfold async_step_password. erewrite bind_ok by reflexivity.
    destruct (_discovered_adv st); [apply create_entry_state | reflexivity].
  - destruct (_discovered_adv st) as [adv|] eqn:Hadv.
    + rewrite (password_form _ _ Hadv). reflexivity.
    + unfold async_step_password. erewrite bind_ok by reflexivity.
      rewrite Hadv. reflexivity.
Qed.

Lemma lock_chose_method_state user_input st :
  fst (async_step_lock_chose_method user_input st) = st.
Proof.
  destruct (_discovered_adv st) as [adv|] eqn:Hadv.
  - destruct user_input as [ui|].
    + rewrite (lock_chose_method_submit _ _ _ Hadv), lock_auth_form_eq,
        lock_key_form_eq, lock_chose_method_form_state.
      destruct (PyVal.eq_str _ "login_password"); [reflexivity |].
      destruct (PyVal.eq_str _ "encryption_key"); reflexivity.
    + rewrite (lock_chose_method_form_eq _ _ Hadv). reflexivity.
  - unfold async_step_lock_chose_method. erewrite bind_ok by reflexivity.
    rewrite Hadv. reflexivity.
Qed.

Lemma confirm_state user_input st :
  fst (async_step_confirm user_input st) = st
  \/ fst (async_step_confirm user_input st) = set_confirm_only st.
Proof.
  destruct user_input as [ui|].
  - left. unfold async_step_confirm. erewrite bind_ok by reflexivity.
    destruct (_discovered_adv st); [apply create_entry_state | reflexivity].
  - destruct (_discovered_adv st) as [adv|] eqn:Hadv.
    + right. rewrite (confirm_form _ _ Hadv). reflexivity.
    + left. unfold async_step_confirm. erewrite bind_ok by reflexivity.
      rewrite Hadv. reflexivity.
Qed.

(** X20: the steps that follow the selection never touch the transient
    state of the run, whatever is submitted and however the collaborators
    answer; the only change is the confirm-only mark that the confirmation
    form sets. *)
Theorem auxiliary_steps_keep_state
    (user_input : option (gmap string value)) (st : FlowState) :
  fst (async_step_password user_input st) = st
  /\ fst (async_step_lock_chose_method user_input st) = st
  /\ fst (async_step_lock_auth user_input st) = st
  /\ fst (async_step_lock_key user_input st) = st
  /\ (fst (async_step_confirm user_input st) = st
      \/ fst (async_step_confirm user_input st) = set_confirm_only st).
Proof.
  split; [apply password_state |]. split; [apply lock_chose_method_state |].
  split; [apply lock_auth_state |]. split; [apply lock_key_state |].
  apply confirm_state.
Qed.

Lemma user_submit hass st ui key adv :
  ui !! CONF_ADDRESS = Some (VStr key) ->
  OrdDict.lookup key (_discovered_advs st) = Some adv ->
  async_step_user hass (Some ui) st
  = if bool_decide (format_unique_id (address adv) ∈ current_ids hass)
    then (selected adv st, Raise (AbortFlow "already_configured"))
    else if bool_decide (modelName (data adv) = Some SwitchbotModel_LOCK)
    then async_step_lock_chose_method None (selected adv st)
    else if isEncrypted (data adv)
    then async_step_password None (selected adv st)
    else _async_create_entry_from_discovery ui (selected adv st).
Proof.
  intros Hkey Hadv. unfold async_step_user.
  rewrite lift_bind. unfold PyVal.subscript. rewrite Hkey.
  erewrite bind_ok by reflexivity.
  rewrite lift_bind. unfold discovered_advs_getitem. rewrite Hadv.
  destruct (decide (format_unique_id (address adv) ∈ current_ids hass))
    as [Hold | Hnew].
  - rewrite (bool_decide_eq_true_2 _ Hold).
    erewrite bind_raise by (apply set_device_configured; exact Hold).
    reflexivity.
  - rewrite (bool_decide_eq_false_2 _ Hnew).
    erewrite bind_ok by (apply set_device_unconfigured; exact Hnew).
    destruct (bool_decide (modelName _ = _)); [reflexivity |].
    destruct (isEncrypted (data adv)); reflexivity.
Qed.

(** X11: a submission whose address is missing, or is not one of the
    discovered addresses, selects nothing: the step ends with [KeyError]
    ([TypeError] for a dictionary in place of the address) and the state of
    the run is what it was. *)
Theorem selection_of_unknown_address
    (hass : Hass) (st : FlowState) (ui : gmap string value)
    (Hunknown : forall key,
        ui !! CONF_ADDRESS = Some (VStr key) ->
        OrdDict.lookup key (_discovered_advs st) = None) :
  async_step_user hass (Some ui) st
  = (st,
     Raise (match ui !! CONF_ADDRESS with
            | None => KeyError (VStr CONF_ADDRESS)
            | Some (VDict items) => TypeError
            | Some key => KeyError key
            end)).
Proof.
  unfold async_step_user. rewrite lift_bind. unfold PyVal.subscript.
  destruct (ui !! CONF_ADDRESS) as [key|] eqn:Hkey; [| reflexivity].
  erewrite bind_ok by reflexivity. rewrite lift_bind.
  unfold discovered_advs_getitem.
  destruct key as [| z | k | items]; try reflexivity.
  rewrite (Hunknown k eq_refl). reflexivity.
Qed.

(** X13: submitting one of the discovered addresses always selects the
    advertisement stored for it and records its identity, also when the run
    then aborts as a duplicate, which it does exactly when a record with
    that identity exists; the map of discovered devices is not changed. *)
Theorem selection_records_device
    (hass : Hass) (st : FlowState) (ui : gmap string value) (key : string)
    (Hkey : ui !! CONF_ADDRESS = Some (VStr key))
    (Hoffered : key ∈ (_discovered_advs st).*1) :
  exists adv,
    (key, adv) ∈ _discovered_advs st
    /\ fst (async_step_user hass (Some ui) st) = selected adv st
    /\ (format_unique_id (address adv) ∈ current_ids hass
        <-> snd (async_step_user hass (Some ui) st)
            = Raise (AbortFlow "already_configured")).
Proof.
  apply OrdDict_mem_keys in Hoffered. unfold OrdDict.mem in Hoffered.
  apply bool_decide_eq_true in Hoffered as [adv Hadv].
  exists adv. split; [apply OrdDict_lookup_elem, Hadv |].
  rewrite (user_submit _ _ _ _ _ Hkey Hadv).
  assert (Hsel : _discovered_adv (selected adv st) = Some adv) by reflexivity.
  destruct (bool_decide (format_unique_id (address adv) ∈ current_ids hass))
    eqn:Hdup.
  { apply bool_decide_eq_true in Hdup. split; [reflexivity |]. tauto. }
  apply bool_decide_eq_false in Hdup.
  assert (Hno : forall r : Res FlowResult,
             (forall e, r = Raise e -> e <> AbortFlow "already_configured") ->
             format_unique_id (address adv) ∈ current_ids hass
             <-> r = Raise (AbortFlow "already_configured")).
  { intros r Hr. split; [contradiction |]. intros ->. exfalso.
    exact (Hr _ eq_refl eq_refl). }
  destruct (bool_decide (modelName (data adv) = Some SwitchbotModel_LOCK));
    [| destruct (isEncrypted (data adv))].
  - rewrite (lock_chose_method_form_eq _ _ Hsel). cbn [fst snd].
    split; [reflexivity |]. apply Hno. intros e.
    destruct (name_from_discovery adv) as [n | e'] eqn:Hn; [discriminate |].
    rewrite (name_from_discovery_raises _ _ Hn). congruence.
  - rewrite (password_form _ _ Hsel). cbn [fst snd].
    split; [reflexivity |]. apply Hno. intros e.
    destruct (name_from_discovery adv) as [n | e'] eqn:Hn; [discriminate |].
    rewrite (name_from_discovery_raises _ _ Hn). congruence.
  - rewrite (create_entry_eq _ _ _ Hsel). cbn [fst snd].
    split; [reflexivity |]. apply Hno. intros e.
    destruct (name_from_discovery adv) as [n | e'] eqn:Hn.
    + destruct (modelName (data adv)) as [m|]; [| congruence].
      destruct (SUPPORTED_MODEL_TYPES !! m); congruence.
    + rewrite (name_from_discovery_raises _ _ Hn). congruence.
Qed.

Lemma mapM_Res_ok {A B} (f : A -> Res B) xs ys :
  mapM_Res f xs = Ok ys -> Forall2 (fun x y => f x = Ok y) xs ys.
Proof.
  revert ys. induction xs as [| x xs IH]; intros ys; cbn [mapM_Res].
  - intros [= <-]. constructor.
  - destruct (f x) as [y|] eqn:Hx; [| discriminate].
    destruct (mapM_Res f xs) as [ys'|]; [| discriminate].
    intros [= <-]. constructor; [exact Hx | apply IH; reflexivity].
Qed.

Lemma mapM_Res_all {A B} (f : A -> Res B) xs :
  Forall (fun x => exists y, f x = Ok y) xs -> exists ys, mapM_Res f xs = Ok ys.
Proof.
  induction 1 as [| x xs [y Hy] _ [ys IH]]; cbn [mapM_Res]; [eauto |].
  rewrite Hy, IH. eauto.
Qed.

(** X12: with two or more candidates after the scan the discovery step
    selects nothing and, whenever it returns a result, returns the
    selection form, which offers exactly the discovered addresses, in the
    order of discovery, each under the display name of its advertisement;
    it does return the form when every candidate has a display name. *)
Theorem selection_form_offers_candidates
    (hass : Hass) (st : FlowState)
    (advs : list (string * SwitchBotAdvertisement))
    (Hscan : discover_all hass (_discovered_advs st) = advs)
    (Hmany : 2 <= length advs) :
  fst (async_step_user hass None st) = set_discovered_advs advs st
  /\ (forall result,
        snd (async_step_user hass None st) = Ok result ->
        exists choices,
          result = FlowForm "user" [(CONF_ADDRESS, FIn choices)] (Some ∅) []
          /\ choices.*1 = advs.*1
          /\ Forall2 (fun choice candidate =>
                        name_from_discovery candidate.2 = Ok choice.2)
               choices advs)
  /\ (Forall (fun candidate => exists name,
                  name_from_discovery candidate.2 = Ok name) advs ->
      exists result, snd (async_step_user hass None st) = Ok result).
Proof.
  assert (Hstep : async_step_user hass None st
                  = user_form advs (set_discovered_advs advs st)).
  { unfold async_step_user.
    erewrite bind_ok
      by (apply discover_devices_nonempty; rewrite Hscan;
          destruct advs; [cbn in Hmany; lia | discriminate]).
    erewrite bind_ok by reflexivity.
    cbn [_discovered_advs set_discovered_advs]. rewrite Hscan.
    rewrite bool_decide_eq_false_2 by lia. reflexivity. }
  rewrite Hstep. unfold user_form. rewrite lift_bind.
  set (f := fun '(address, parsed) =>
              let? name := name_from_discovery parsed in Ok (address, name)).
  destruct (mapM_Res f advs) as [choices | e] eqn:Hmap; cbn [fst snd ret].
  - split; [reflexivity |]. split; [| eauto].
    intros result [= <-]. exists choices. split; [reflexivity |].
    apply mapM_Res_ok in Hmap. clear -Hmap.
    induction Hmap as [| [k adv] [k' n] advs choices Hx _ [IH1 IH2]];
      [split; [reflexivity | constructor] |].
    unfold f in Hx. destruct (name_from_discovery adv) as [n'|] eqn:Hn;
      [| discriminate]. injection Hx as <- <-.
    split; [cbn; f_equal; exact IH1 | constructor; [exact Hn | exact IH2]].
  - split; [reflexivity |]. split; [discriminate |].
    intros Hall. exfalso.
    destruct (mapM_Res_all f advs) as [ys Hys]; [| congruence].
    eapply Forall_impl; [exact Hall |]. intros [k adv] [n Hn]. cbn in Hn.
    unfold f. rewrite Hn. eauto.
Qed.

(** X23: selecting a candidate that is neither a lock nor encrypted
    finalizes the run at once: no further form, and an entry with the
    submitted selection, the address of the advertisement and its sensor
    type, under the display name of the device. *)
Theorem plain_candidate_finalized_at_once
    (hass : Hass) (st : FlowState) (selection : gmap string value)
    (key : string) (adv : SwitchBotAdvertisement)
    (model_name sensor_type name : string)
    (Hkey : selection !! CONF_ADDRESS = Some (VStr key))
    (Hadv : OrdDict.lookup key (_discovered_advs st) = Some adv)
    (Hnew : format_unique_id (address adv) ∉ current_ids hass)
    (Hmodel : modelName (data adv) = Some model_name)
    (Hlock : model_name <> SwitchbotModel_LOCK)
    (Henc : isEncrypted (data adv) = false)
    (Hsupported : SUPPORTED_MODEL_TYPES !! model_name = Some sensor_type)
    (Hname : name_from_discovery adv = Ok name) :
  async_step_user hass (Some selection) st
  = (selected adv st,
     Ok (FlowCreateEntry name
           (<[CONF_SENSOR_TYPE := VStr sensor_type]>
              (<[CONF_ADDRESS := VStr (address adv)]> selection)))).
Proof.
  rewrite (user_submit _ _ _ _ _ Hkey Hadv).
  rewrite (bool_decide_eq_false_2 _ Hnew), Hmodel.
  rewrite bool_decide_eq_false_2 by congruence. rewrite Henc.
  rewrite (create_entry_eq _ adv) by reflexivity.
  rewrite Hname, Hmodel, Hsupported. reflexivity.
Qed.

(** X18: a passive discovery of a device that is not configured, parses to
    a supported model and, if that model needs a connection, arrived over a
    connectable path, records the identity, selects the advertisement,
    fills the title placeholders and shows the password form for an
    encrypted device, the confirmation form (marking the run confirm-only)
    otherwise. *)
Theorem bluetooth_accepts_eligible
    (hass : Hass) (st : FlowState) (info : BluetoothServiceInfoBleak)
    (parsed : SwitchBotAdvertisement) (short name : string)
    (Hnew : format_unique_id (info_address info) ∉ current_ids hass)
    (Hparsed : parse_advertisement_data (info_device info)
                 (info_advertisement info) = Some parsed)
    (Hsupported : in_table (modelName (data parsed)) SUPPORTED_MODEL_TYPES = true)
    (Hrule : connectable info = true
             \/ in_table (modelName (data parsed))
                  CONNECTABLE_SUPPORTED_MODEL_TYPES = false)
    (Hshort : short_address (info_address info) = Ok short)
    (Hname : name_from_discovery parsed = Ok name) :
  async_step_bluetooth hass info st
  = ({| unique_id := Some (format_unique_id (info_address info));
        _discovered_adv := Some parsed;
        _discovered_advs := _discovered_advs st;
        title_placeholders := Some (modelFriendlyName (data parsed), short);
        confirm_only :=
          if isEncrypted (data parsed) then confirm_only st else true |},
     Ok (if isEncrypted (data parsed)
         then FlowForm "password" [(CONF_PASSWORD, FStr)] None [("name", name)]
         else FlowForm "confirm" [] None [("name", name)])).
Proof.
  rewrite bluetooth_unconfigured by exact Hnew. cbv zeta.
  rewrite Hparsed, Hsupported. cbn [negb].
  replace (negb (connectable info)
           && in_table (modelName (data parsed)) CONNECTABLE_SUPPORTED_MODEL_TYPES)
    with false
    by (destruct Hrule as [-> | ->];
        [reflexivity | rewrite andb_false_r; reflexivity]).
  rewrite Hshort. destruct (isEncrypted (data parsed)).
  - rewrite (password_form _ parsed) by reflexivity. rewrite Hname. reflexivity.
  - rewrite (confirm_form _ parsed) by reflexivity. rewrite Hname. reflexivity.
Qed.

(** X19: whenever the passive step shows a form, the step that form
    belongs to finalizes the run for whatever is submitted: the model check
    of the passive step is what the entry needs.  The entry carries the
    address of the parsed advertisement, and the identity of the run is the
    normalized address of the discovery. *)
Theorem passive_form_then_entry
    (hass : Hass) (st : FlowState) (info : BluetoothServiceInfoBleak)
    (step_id : string) (schema : list (string * Field))
    (errors : option (gmap string string)) (placeholders : list (string * string))
    (user_input : gmap string value)
    (Hform : snd (async_step_bluetooth hass info st)
             = Ok (FlowForm step_id schema errors placeholders)) :
  let st' := fst (async_step_bluetooth hass info st) in
  exists parsed title entry_data,
    parse_advertisement_data (info_device info) (info_advertisement info)
      = Some parsed
    /\ unique_id st' = Some (format_unique_id (info_address info))
    /\ async_step_password (Some user_input) st'
       = (st', Ok (FlowCreateEntry title entry_data))
    /\ async_step_confirm (Some user_input) st'
       = (st', Ok (FlowCreateEntry title entry_data))
    /\ entry_data !! CONF_ADDRESS = Some (VStr (address parsed))
    /\ step_id = (if isEncrypted (data parsed) then "password" else "confirm").
Proof.
  cbv zeta.
  destruct (decide (format_unique_id (info_address info) ∈ current_ids hass))
    as [Hold | Hnew].
  { rewrite bluetooth_configured in Hform by exact Hold. discriminate Hform. }
  rewrite bluetooth_unconfigured in Hform |- * by exact Hnew. cbv zeta in *.
  destruct (parse_advertisement_data _ _) as [parsed|]; [| discriminate Hform].
  destruct (in_table (modelName (data parsed)) SUPPORTED_MODEL_TYPES) eqn:Hsup;
    [| discriminate Hform]. cbn [negb] in *.
  destruct (negb (connectable info) && _); [discriminate Hform |].
  destruct (short_address (info_address info)) as [short|];
    [| discriminate Hform].
  unfold in_table in Hsup. destruct (modelName (data parsed)) as [m|] eqn:Hm;
    [| discriminate Hsup].
  apply bool_decide_eq_true in Hsup as [t Ht].
  assert (Hentry : forall st0,
             _discovered_adv st0 = Some parsed ->
             forall n, name_from_discovery parsed = Ok n ->
             async_step_password (Some user_input) st0
             = (st0, Ok (FlowCreateEntry n
                           (<[CONF_SENSOR_TYPE := VStr t]>
                              (<[CONF_ADDRESS := VStr (address parsed)]>
                                 user_input))))
             /\ async_step_confirm (Some user_input) st0
                = (st0, Ok (FlowCreateEntry n
                              (<[CONF_SENSOR_TYPE := VStr t]>
                                 (<[CONF_ADDRESS := VStr (address parsed)]>
                                    user_input))))).
  { intros st0 Hsel n Hn. unfold async_step_password, async_step_confirm.
    erewrite !bind_ok by reflexivity. rewrite Hsel.
    rewrite (create_entry_eq _ _ _ Hsel), Hn, Hm, Ht. split; reflexivity. }
  exists parsed. destruct (isEncrypted (data parsed)).
  - rewrite (password_form _ parsed) in Hform |- * by reflexivity.
    cbn [fst snd] in *.
    destruct (name_from_discovery parsed) as [n|] eqn:Hn; [| discriminate Hform].
    injection Hform as <- _ _ _.
    destruct (Hentry (set_title_placeholders
                        (Some (modelFriendlyName (data parsed), short))
                        (set_discovered_adv (Some parsed)
                           (set_unique_id
                              (Some (format_unique_id (info_address info)))
                              st))) eq_refl n eq_refl) as [Hp Hc].
    do 2 eexists. split; [reflexivity |]. split; [reflexivity |].
    split; [exact Hp |]. split; [exact Hc |]. split; [| reflexivity].
    rewrite lookup_insert_ne by discriminate. apply lookup_insert_eq.
  - rewrite (confirm_form _ parsed) in Hform |- * by reflexivity.
    cbn [fst snd] in *.
    destruct (name_from_discovery parsed) as [n|] eqn:Hn; [| discriminate Hform].
    injection Hform as <- _ _ _.
    destruct (Hentry (set_confirm_only
                        (set_title_placeholders
                           (Some (modelFriendlyName (data parsed), short))
                           (set_discovered_adv (Some parsed)
                              (set_unique_id
                                 (Some (format_unique_id (info_address info)))
                                 st)))) eq_refl n eq_refl) as [Hp Hc].
    do 2 eexists. split; [reflexivity |]. split; [reflexivity |].
    split; [exact Hp |]. split; [exact Hc |]. split; [| reflexivity].
    rewrite lookup_insert_ne by discriminate. apply lookup_insert_eq.
Qed.

(** X21: any number of submissions that fail in a way the lock steps
    handle (keys that the device does not accept, credentials for which the
    resolver raises [RuntimeError]) gives the same form with the same
    errors each time, and leaves the state of the run as it was. *)
Theorem rejected_submissions_rerender
    (st : FlowState) (adv : SwitchBotAdvertisement) (name : string)
    (keys credentials : list (gmap string value))
    (Hadv : _discovered_adv st = Some adv)
    (Hname : name_from_discovery adv = Ok name)
    (Hkeys : Forall (fun ui =>
                       verify_encryption_key (device adv)
                         (PyVal.get ui CONF_KEY_ID)
                         (PyVal.get ui CONF_ENCRYPTION_KEY) = false) keys)
    (Hcredentials :
       Forall (fun ui =>
                 exists msg,
                   retrieve_lock_key (address adv)
                     (PyVal.get ui CONF_USERNAME) (PyVal.get ui CONF_PASSWORD)
                   = Raise (RuntimeError msg)) credentials) :
  submit_all (fun ui => async_step_lock_key (Some ui)) keys st
  = (st,
     replicate (length keys)
       (Ok (FlowForm "lock_key"
              [(CONF_KEY_ID, FStr); (CONF_ENCRYPTION_KEY, FStr)]
              (Some (<[CONF_ENCRYPTION_KEY := "encryption_key_invalid"]>
                       {[CONF_KEY_ID := "key_id_invalid"]}))
              [("name", name)])))
  /\ submit_all (fun ui => async_step_lock_auth (Some ui)) credentials st
     = (st,
        replicate (length credentials)
          (Ok (FlowForm "lock_auth"
                 [(CONF_USERNAME, FStr); (CONF_PASSWORD, FStr)]
                 (Some {[CONF_USERNAME := "auth_failed"]})
                 [("name", name)]))).
Proof.
  split.
  - rewrite (failed_key_submissions_rerender _ _ _ Hadv Hkeys), Hname.
    reflexivity.
  - rewrite (failed_credential_submissions_rerender _ _ _ Hadv Hcredentials),
      Hname. reflexivity.
Qed.

Lemma form_is_no_entry (st : FlowState) (name : Res string)
    (form : string -> FlowResult) title entry_data :
  (forall n, form n <> FlowCreateEntry title entry_data) ->
  snd (st, let? n := name in Ok (form n)) <> Ok (FlowCreateEntry title entry_data).
Proof.
  intros Hform. destruct name as [n | e]; cbn; [| discriminate].
  intros [= H]. exact (Hform n H).
Qed.

(** X22: neither entry point finalizes a run by itself: whatever the store
    and the cached events are, the passive step and the discovery step end
    with a form, an abort or an exception, never with an entry. *)
Theorem entry_points_never_finalize
    (hass : Hass) (st : FlowState) (info : BluetoothServiceInfoBleak)
    (title : string) (entry_data : gmap string value) :
  snd (async_step_bluetooth hass info st) <> Ok (FlowCreateEntry title entry_data)
  /\ snd (async_step_user hass None st) <> Ok (FlowCreateEntry title entry_data).
Proof.
  split.
  - destruct (decide (format_unique_id (info_address info) ∈ current_ids hass))
      as [Hold | Hnew].
    { rewrite bluetooth_configured by exact Hold. discriminate. }
    rewrite bluetooth_unconfigured by exact Hnew. cbv zeta.
    destruct (parse_advertisement_data _ _) as [parsed|]; [| discriminate].
    destruct (negb (in_table _ SUPPORTED_MODEL_TYPES)); [discriminate |].
    destruct (negb (connectable info) && _); [discriminate |].
    destruct (short_address _); [| discriminate].
    destruct (isEncrypted (data parsed)).
    + rewrite (password_form _ parsed) by reflexivity.
      apply form_is_no_entry. discriminate.
    + rewrite (confirm_form _ parsed) by reflexivity.
      apply form_is_no_entry. discriminate.
  - unfold async_step_user.
    destruct (discover_all hass (_discovered_advs st)) as [| [k adv] rest] eqn:Hscan.
    { erewrite bind_raise by (apply discover_devices_empty; exact Hscan).
      discriminate. }
    erewrite bind_ok
      by (apply discover_devices_nonempty; rewrite Hscan; discriminate).
    erewrite bind_ok by reflexivity.
    cbn [_discovered_advs set_discovered_advs]. rewrite Hscan.
    destruct (bool_decide (length ((k, adv) :: rest) = 1)).
    + destruct (decide (format_unique_id (address adv) ∈ current_ids hass))
        as [Hold | Hnew].
      { erewrite bind_raise by (apply set_device_configured; exact Hold).
        discriminate. }
      erewrite bind_ok by (apply set_device_unconfigured; exact Hnew).
      destruct (bool_decide _); [| destruct (isEncrypted (data adv))].
      * rewrite (lock_chose_method_form_eq _ adv) by reflexivity.
        apply form_is_no_entry. discriminate.
      * rewrite (password_form _ adv) by reflexivity.
        apply form_is_no_entry. discriminate.
      * rewrite (confirm_form _ adv) by reflexivity.
        apply form_is_no_entry. discriminate.
    + unfold user_form. rewrite lift_bind.
      destruct (mapM_Res _ _); discriminate.
Qed.

End Flow.

(** ** The flow in the concrete world *)

Local Abbreviation sample_bluetooth :=
  (async_step_bluetooth Sample.parse Sample.CONNECTABLE Sample.SUPPORTED).
Local Abbreviation sample_discover_one :=
  (discover_one Sample.parse Sample.CONNECTABLE Sample.NON_CONNECTABLE).
Local Abbreviation sample_user :=
  (async_step_user Sample.parse Sample.LOCK Sample.verify Sample.hmac
     Sample.auth Sample.post Sample.loads Sample.format
     Sample.CONNECTABLE Sample.NON_CONNECTABLE Sample.SUPPORTED).
Local Abbreviation sample_password := (async_step_password Sample.SUPPORTED).
Local Abbreviation sample_retrieve :=
  (retrieve_lock_key Sample.hmac Sample.auth Sample.post Sample.loads
     Sample.format).
Local Abbreviation sample_lock_auth :=
  (async_step_lock_auth Sample.verify Sample.hmac Sample.auth Sample.post
     Sample.loads Sample.format Sample.SUPPORTED).

(** The scenario of two encrypted bots: selection form with both names,
    then the password form, then the entry. *)
Example two_bots_selection_form :
  sample_user
    (Sample.hass []
       [Sample.info "AA:BB:CC:DD:00:01" "bot-encrypted" true;
        Sample.info "AA:BB:CC:DD:00:02" "bot-encrypted" true] [])
    None init_state
  = (Sample.two_bots,
     Ok (FlowForm "user"
           [(CONF_ADDRESS,
              FIn [("AA:BB:CC:DD:00:01", "Bot 0001");
                   ("AA:BB:CC:DD:00:02", "Bot 0002")])]
           (Some ∅) [])).
Proof. vm_compute. reflexivity. Qed.

Example two_bots_password_form :
  sample_user (Sample.hass [] [] [])
    (Some {[CONF_ADDRESS := VStr "AA:BB:CC:DD:00:02"]}) Sample.two_bots
  = (selected (Sample.adv "AA:BB:CC:DD:00:02" "bot-encrypted") Sample.two_bots,
     Ok (FlowForm "password" [(CONF_PASSWORD, FStr)] None [("name", "Bot 0002")])).
Proof. vm_compute. reflexivity. Qed.

Example two_bots_entry :
  sample_password (Some {[CONF_PASSWORD := VStr "x"]})
    (selected (Sample.adv "AA:BB:CC:DD:00:02" "bot-encrypted") Sample.two_bots)
  = (selected (Sample.adv "AA:BB:CC:DD:00:02" "bot-encrypted") Sample.two_bots,
     Ok (FlowCreateEntry "Bot 0002"
           (<[CONF_SENSOR_TYPE := VStr "bot"]>
              (<[CONF_ADDRESS := VStr "AA:BB:CC:DD:00:02"]>
                 {[CONF_PASSWORD := VStr "x"]})))).
Proof. vm_compute. reflexivity. Qed.

(** A lock that is cached both over a connectable and over a
    non-connectable path is found once, through the connectable one; a
    meter needs no connection and leads straight to the confirmation. *)
Example scan_lock_twice :
  discover_all Sample.parse Sample.CONNECTABLE Sample.NON_CONNECTABLE
    (Sample.hass []
       [Sample.info "AA:BB:CC:DD:EE:FF" "lock" true]
       [Sample.info "AA:BB:CC:DD:EE:FF" "lock" false]) []
  = [("AA:BB:CC:DD:EE:FF", Sample.adv "AA:BB:CC:DD:EE:FF" "lock")].
Proof. vm_compute. reflexivity. Qed.

Example single_meter_confirm :
  snd (sample_user
         (Sample.hass [] [] [Sample.info "AA:BB:CC:DD:00:03" "meter" false])
         None init_state)
  = Ok (FlowForm "confirm" [] None [("name", "Meter 0003")]).
Proof. vm_compute. reflexivity. Qed.

(** *** Instances of the theorems *)

Ltac compute_decision := apply (bool_decide_unpack _); vm_compute; exact I.

(** The lock AA:BB:CC:DD:EE:FF is already configured. *)
Lemma duplicate_identity_aborts_witness :
  reported
    (sample_bluetooth (Sample.hass ["aabbccddeeff"] [] [])
       (Sample.info "AA:BB:CC:DD:EE:FF" "lock" true) init_state)
  = Some (FlowAbort "already_configured").
Proof.
  apply (duplicate_identity_aborts Sample.parse Sample.LOCK Sample.verify
           Sample.hmac Sample.auth Sample.post Sample.loads Sample.format
           Sample.CONNECTABLE Sample.NON_CONNECTABLE Sample.SUPPORTED
           (Sample.hass ["aabbccddeeff"] [] []) init_state
           (Sample.info "AA:BB:CC:DD:EE:FF" "lock" true)
           (Sample.adv "AA:BB:CC:DD:EE:FF" "lock"));
    compute_decision.
Defined.


(** A lock seen only through a non-connectable path, not configured. *)
Lemma non_connectable_event_is_ineligible_witness :
  reported
    (sample_bluetooth (Sample.hass [] [] [])
       (Sample.info "AA:BB:CC:DD:EE:FF" "lock" false) init_state)
  = Some (FlowAbort "not_supported")
  /\ sample_discover_one ∅ [] (Sample.info "AA:BB:CC:DD:EE:FF" "lock" false) = [].
Proof.
  pose proof
    (non_connectable_event_is_ineligible Sample.parse Sample.CONNECTABLE
       Sample.NON_CONNECTABLE Sample.SUPPORTED
       ltac:(compute_decision) ltac:(compute_decision)
       (Sample.hass [] [] []) init_state []
       (Sample.info "AA:BB:CC:DD:EE:FF" "lock" false)
       (Sample.adv "AA:BB:CC:DD:EE:FF" "lock")
       eq_refl eq_refl eq_refl) as [[Hpassive _] [Hactive _]].
  split; [exact Hpassive | exact Hactive].
Defined.

(** The same lock when it is already configured: the passive step aborts,
    but not with [not_supported]. *)
Lemma passive_abort_reason_counterexample :
  Sample.parse
    (info_device (Sample.info "AA:BB:CC:DD:EE:FF" "lock" false))
    (info_advertisement (Sample.info "AA:BB:CC:DD:EE:FF" "lock" false))
  = Some (Sample.adv "AA:BB:CC:DD:EE:FF" "lock")
  /\ in_table (modelName (data (Sample.adv "AA:BB:CC:DD:EE:FF" "lock")))
       Sample.CONNECTABLE = true
  /\ connectable (Sample.info "AA:BB:CC:DD:EE:FF" "lock" false) = false
  /\ reported
       (sample_bluetooth (Sample.hass ["aabbccddeeff"] [] [])
          (Sample.info "AA:BB:CC:DD:EE:FF" "lock" false) init_state)
     = Some (FlowAbort "already_configured")
  /\ reported
       (sample_bluetooth (Sample.hass ["aabbccddeeff"] [] [])
          (Sample.info "AA:BB:CC:DD:EE:FF" "lock" false) init_state)
     <> Some (FlowAbort "not_supported").
Proof.
  assert (Hrun : reported
            (sample_bluetooth (Sample.hass ["aabbccddeeff"] [] [])
               (Sample.info "AA:BB:CC:DD:EE:FF" "lock" false) init_state)
          = Some (FlowAbort "already_configured")) by (vm_compute; reflexivity).
  rewrite Hrun. repeat split; try (vm_compute; reflexivity). discriminate.
Qed.

(** mallory is rejected, dave cannot reach the identity service. *)
Lemma credential_failures_share_one_error_witness :
  sample_lock_auth (Some (Sample.credentials "mallory" "x"))
    (Sample.chosen "AA:BB:CC:DD:EE:FF" "lock")
  = (Sample.chosen "AA:BB:CC:DD:EE:FF" "lock",
     Ok (FlowForm "lock_auth" [(CONF_USERNAME, FStr); (CONF_PASSWORD, FStr)]
           (Some {[CONF_USERNAME := "auth_failed"]}) [("name", "Lock EEFF")]))
  /\ sample_lock_auth (Some (Sample.credentials "dave" "x"))
       (Sample.chosen "AA:BB:CC:DD:EE:FF" "lock")
     = (Sample.chosen "AA:BB:CC:DD:EE:FF" "lock",
        Ok (FlowForm "lock_auth" [(CONF_USERNAME, FStr); (CONF_PASSWORD, FStr)]
              (Some {[CONF_USERNAME := "auth_failed"]}) [("name", "Lock EEFF")])).
Proof.
  pose proof
    (credential_failures_share_one_error Sample.verify Sample.hmac Sample.auth
       Sample.post Sample.loads Sample.format Sample.SUPPORTED
       (Sample.chosen "AA:BB:CC:DD:EE:FF" "lock")
       (Sample.adv "AA:BB:CC:DD:EE:FF" "lock")
       (Sample.credentials "mallory" "x") (Sample.credentials "dave" "x")
       "mallory" "dave" "EndpointConnectionError"
       eq_refl eq_refl eq_refl eq_refl eq_refl) as (_ & _ & Hr & Hf & _).
  split; [exact Hr | exact Hf].
Defined.

(** The resolver tells the rejection of mallory from the unreachable
    service of dave, yet the credential step answers both alike. *)
Lemma credential_step_ignores_distinction_counterexample :
  sample_retrieve "AA:BB:CC:DD:EE:FF" (VStr "mallory") (VStr "x")
  = Raise (RuntimeError "Failed to authenticate")
  /\ sample_retrieve "AA:BB:CC:DD:EE:FF" (VStr "dave") (VStr "x")
     = Raise (RuntimeError "Unexpected error during authentication")
  /\ sample_lock_auth (Some (Sample.credentials "mallory" "x"))
       (Sample.chosen "AA:BB:CC:DD:EE:FF" "lock")
     = sample_lock_auth (Some (Sample.credentials "dave" "x"))
         (Sample.chosen "AA:BB:CC:DD:EE:FF" "lock").
Proof. repeat split; vm_compute; reflexivity. Qed.

(** C4: the key service answers bob with a body that has no status code,
    and the request of carol times out.  Neither failure is a
    [RuntimeError], so neither is caught by the credential step: no form is
    shown again, the exception leaves the step. *)
Theorem unexpected_key_reply_escapes_credential_step :
  sample_lock_auth (Some (Sample.credentials "bob" "x"))
    (Sample.chosen "AA:BB:CC:DD:EE:FF" "lock")
  = (Sample.chosen "AA:BB:CC:DD:EE:FF" "lock",
     Raise (KeyError (VStr "statusCode")))
  /\ reported
       (sample_lock_auth (Some (Sample.credentials "bob" "x"))
          (Sample.chosen "AA:BB:CC:DD:EE:FF" "lock")) = None
  /\ sample_lock_auth (Some (Sample.credentials "carol" "x"))
       (Sample.chosen "AA:BB:CC:DD:EE:FF" "lock")
     = (Sample.chosen "AA:BB:CC:DD:EE:FF" "lock",
        Raise (ExternalError "Timeout"))
  /\ reported
       (sample_lock_auth (Some (Sample.credentials "carol" "x"))
          (Sample.chosen "AA:BB:CC:DD:EE:FF" "lock")) = None.
Proof. repeat split; vm_compute; reflexivity. Qed.

(** One connectable lock in range, nothing configured. *)
Lemma single_candidate_skips_selection_witness :
  exists schema errors,
    snd (sample_user
           (Sample.hass [] [Sample.info "AA:BB:CC:DD:EE:FF" "lock" true] [])
           None init_state)
    = Ok (FlowForm "lock_chose_method" schema errors [("name", "Lock EEFF")]).
Proof.
  pose proof
    (single_candidate_skips_selection Sample.parse Sample.LOCK Sample.verify
       Sample.hmac Sample.auth Sample.post Sample.loads Sample.format
       Sample.CONNECTABLE Sample.NON_CONNECTABLE Sample.SUPPORTED
       (Sample.hass [] [Sample.info "AA:BB:CC:DD:EE:FF" "lock" true] [])
       init_state "AA:BB:CC:DD:EE:FF" (Sample.adv "AA:BB:CC:DD:EE:FF" "lock")
       eq_refl ltac:(compute_decision)) as (_ & _ & Hform).
  exact (Hform "Lock EEFF" eq_refl).
Defined.

(** The second of two encrypted bots is selected. *)
Lemma encrypted_candidate_password_accepted_witness :
  sample_user (Sample.hass [] [] [])
    (Some {[CONF_ADDRESS := VStr "AA:BB:CC:DD:00:02"]}) Sample.two_bots
  = (selected (Sample.adv "AA:BB:CC:DD:00:02" "bot-encrypted") Sample.two_bots,
     Ok (FlowForm "password" [(CONF_PASSWORD, FStr)] None [("name", "Bot 0002")])).
Proof.
  refine
    (proj1
       (encrypted_candidate_password_accepted Sample.parse Sample.LOCK
          Sample.verify Sample.hmac Sample.auth Sample.post Sample.loads
          Sample.format Sample.CONNECTABLE Sample.NON_CONNECTABLE
          Sample.SUPPORTED (Sample.hass [] [] []) Sample.two_bots
          {[CONF_ADDRESS := VStr "AA:BB:CC:DD:00:02"]} "AA:BB:CC:DD:00:02"
          (Sample.adv "AA:BB:CC:DD:00:02" "bot-encrypted")
          "WoHand" "bot" "Bot 0002"
          eq_refl eq_refl _ eq_refl _ eq_refl eq_refl eq_refl)).
  - compute_decision.
  - discriminate.
Defined.

(** alice obtains the key of a lock that answers. *)
Lemma credential_exchange_finalizes_after_verification_witness :
  sample_lock_auth (Some (Sample.credentials "alice" "x"))
    (Sample.chosen "AA:BB:CC:DD:EE:FF" "lock")
  = async_step_lock_key Sample.verify Sample.SUPPORTED
      (Some (<[CONF_ENCRYPTION_KEY := VStr "c0ffee"]> {[CONF_KEY_ID := VStr "ff"]}))
      (Sample.chosen "AA:BB:CC:DD:EE:FF" "lock").
Proof.
  exact
    (proj1
       (credential_exchange_finalizes_after_verification Sample.verify
          Sample.hmac Sample.auth Sample.post Sample.loads Sample.format
          Sample.SUPPORTED (Sample.chosen "AA:BB:CC:DD:EE:FF" "lock")
          (Sample.adv "AA:BB:CC:DD:EE:FF" "lock")
          (Sample.credentials "alice" "x")
          (<[CONF_ENCRYPTION_KEY := VStr "c0ffee"]> {[CONF_KEY_ID := VStr "ff"]})
          "WoLock" "lock" "Lock EEFF"
          eq_refl eq_refl eq_refl eq_refl eq_refl)).
Defined.

Example alice_entry :
  sample_lock_auth (Some (Sample.credentials "alice" "x"))
    (Sample.chosen "AA:BB:CC:DD:EE:FF" "lock")
  = (Sample.chosen "AA:BB:CC:DD:EE:FF" "lock",
     Ok (FlowCreateEntry "Lock EEFF"
           (<[CONF_SENSOR_TYPE := VStr "lock"]>
              (<[CONF_ADDRESS := VStr "AA:BB:CC:DD:EE:FF"]>
                 (<[CONF_ENCRYPTION_KEY := VStr "c0ffee"]>
                    {[CONF_KEY_ID := VStr "ff"]}))))).
Proof. vm_compute. reflexivity. Qed.

(** alice obtains the key of a lock that does not answer: the exchange has
    succeeded, and the run is not finalized. *)
Lemma verified_before_finalize_counterexample :
  sample_retrieve Sample.unreachable (VStr "alice") (VStr "x")
  = Ok (<[CONF_ENCRYPTION_KEY := VStr "c0ffee"]> {[CONF_KEY_ID := VStr "ff"]})
  /\ sample_lock_auth (Some (Sample.credentials "alice" "x"))
       (Sample.chosen Sample.unreachable "lock")
     = (Sample.chosen Sample.unreachable "lock",
        Ok (FlowForm "lock_key"
              [(CONF_KEY_ID, FStr); (CONF_ENCRYPTION_KEY, FStr)]
              (Some (<[CONF_ENCRYPTION_KEY := "encryption_key_invalid"]>
                       {[CONF_KEY_ID := "key_id_invalid"]}))
              [("name", "Lock EE00")])).
Proof. split; vm_compute; reflexivity. Qed.

(** A configured bot and a lock behind a non-connectable path: nothing to
    set up. *)
Lemma no_candidates_aborts_witness :
  reported
    (sample_user
       (Sample.hass ["aabbccdd0001"]
          [Sample.info "AA:BB:CC:DD:00:01" "bot" true]
          [Sample.info "AA:BB:CC:DD:EE:FF" "lock" false])
       None init_state)
  = Some (FlowAbort "no_unconfigured_devices").
Proof.
  refine
    (proj2
       (no_candidates_aborts Sample.parse Sample.LOCK Sample.verify Sample.hmac
          Sample.auth Sample.post Sample.loads Sample.format
          Sample.CONNECTABLE Sample.NON_CONNECTABLE Sample.SUPPORTED
          (Sample.hass ["aabbccdd0001"]
             [Sample.info "AA:BB:CC:DD:00:01" "bot" true]
             [Sample.info "AA:BB:CC:DD:EE:FF" "lock" false])
          init_state eq_refl _)).
  intros [] info Hin; apply list_elem_of_singleton in Hin; subst info;
    vm_compute; reflexivity.
Defined.

(** ** Identity normalization *)

Example format_unique_id_mac :
  format_unique_id "AA:bb:CC:dd:EE:ff" = "aabbccddeeff".
Proof. reflexivity. Qed.

Example short_address_mac : short_address "aa:bb:cc:dd:ee:ff" = Ok "EEFF".
Proof. reflexivity. Qed.

Example short_address_uuid :
  short_address "1234abcd-0000-1111-2222-00000000c0de" = Ok "C0DE".
Proof. vm_compute. reflexivity. Qed.

Example short_address_short : short_address "a:b" = Ok "AB".
Proof. reflexivity. Qed.

Example short_address_no_separator : short_address "aabbcc" = Raise IndexError.
Proof. reflexivity. Qed.

Lemma lower_char_idempotent c :
  PyStr.lower_char (PyStr.lower_char c) = PyStr.lower_char c.
Proof.
  destruct c as [[] [] [] [] [] [] [] []]; reflexivity.
Qed.

Lemma lower_char_colon c :
  Ascii.eqb (PyStr.lower_char c) ":" = Ascii.eqb c ":".
Proof.
  destruct c as [[] [] [] [] [] [] [] []]; reflexivity.
Qed.

Lemma lower_char_case c :
  PyStr.is_upper c = true ->
  PyStr.lower_char (ascii_of_N (N_of_ascii c + 32)) = PyStr.lower_char c.
Proof.
  destruct c as [[] [] [] [] [] [] [] []]; intros H; try reflexivity;
    discriminate H.
Qed.

Lemma upper_is_not_colon c :
  PyStr.is_upper c = true ->
  Ascii.eqb c ":" = false
  /\ Ascii.eqb (ascii_of_N (N_of_ascii c + 32)) ":" = false.
Proof.
  destruct c as [[] [] [] [] [] [] [] []]; intros H; try (split; reflexivity);
    discriminate H.
Qed.

Lemma format_unique_id_cons c a :
  format_unique_id (String c a)
  = if Ascii.eqb c ":" then format_unique_id a
    else String (PyStr.lower_char c) (format_unique_id a).
Proof.
  unfold format_unique_id. cbn [PyStr.replace].
  destruct (Ascii.eqb c ":"); reflexivity.
Qed.

Lemma format_unique_id_idempotent a :
  format_unique_id (format_unique_id a) = format_unique_id a.
Proof.
  induction a as [| c a IH]; [reflexivity |].
  rewrite format_unique_id_cons. destruct (Ascii.eqb c ":") eqn:Hc; [exact IH |].
  rewrite format_unique_id_cons, lower_char_colon, Hc, lower_char_idempotent, IH.
  reflexivity.
Qed.

Lemma format_unique_id_same a b :
  same_address a b -> format_unique_id a = format_unique_id b.
Proof.
  induction 1 as [| c a b _ IH | c a b Hc _ IH | c a b Hc _ IH
                  | a b _ IH | a b _ IH];
    rewrite ?format_unique_id_cons.
  - reflexivity.
  - rewrite IH. reflexivity.
  - destruct (upper_is_not_colon c Hc) as [-> ->].
    rewrite (lower_char_case c Hc), IH. reflexivity.
  - destruct (upper_is_not_colon c Hc) as [-> ->].
    rewrite (lower_char_case c Hc), IH. reflexivity.
  - exact IH.
  - exact IH.
Qed.

(** Conversely, the relation relates all addresses with the same identity. *)
Lemma lower_char_inv c d :
  PyStr.lower_char c = PyStr.lower_char d ->
  c = d
  \/ (PyStr.is_upper c = true /\ d = ascii_of_N (N_of_ascii c + 32))
  \/ (PyStr.is_upper d = true /\ c = ascii_of_N (N_of_ascii d + 32)).
Proof.
  unfold PyStr.lower_char.
  destruct (PyStr.is_upper c) eqn:Hc, (PyStr.is_upper d) eqn:Hd; intros H.
  - left. unfold PyStr.is_upper in Hc, Hd. cbv zeta in Hc, Hd.
    apply andb_true_iff in Hc as [_ Hc]. apply andb_true_iff in Hd as [_ Hd].
    apply N.leb_le in Hc, Hd.
    apply (f_equal N_of_ascii) in H. rewrite !N_ascii_embedding in H by lia.
    rewrite <- (ascii_N_embedding c), <- (ascii_N_embedding d).
    f_equal. lia.
  - right. left. split; [reflexivity | symmetry; exact H].
  - right. right. split; [reflexivity | exact H].
  - left. exact H.
Qed.

Lemma same_address_complete a b :
  format_unique_id a = format_unique_id b -> same_address a b.
Proof.
  revert b. induction a as [| c a IHa]; intros b.
  - induction b as [| d b IHb]; intros H; [constructor |].
    rewrite format_unique_id_cons in H.
    destruct (Ascii.eqb d ":") eqn:Hd; [| discriminate H].
    apply Ascii.eqb_eq in Hd. subst d. apply same_colon_right, IHb, H.
  - rewrite format_unique_id_cons. destruct (Ascii.eqb c ":") eqn:Hc.
    + apply Ascii.eqb_eq in Hc. subst c. intros H. apply same_colon_left, IHa, H.
    + induction b as [| d b IHb]; intros H; [discriminate H |].
      rewrite format_unique_id_cons in H.
      destruct (Ascii.eqb d ":") eqn:Hd.
      * apply Ascii.eqb_eq in Hd. subst d. apply same_colon_right, IHb, H.
      * injection H as Hcd Hrest.
        destruct (lower_char_inv c d Hcd) as [-> | [[Hu ->] | [Hu ->]]].
        -- apply same_char, IHa, Hrest.
        -- apply same_lower; [exact Hu | apply IHa, Hrest].
        -- apply same_upper; [exact Hu | apply IHa, Hrest].
Qed.

(** C10: normalizing an identity twice is normalizing it once, and two
    addresses that differ only in letter case or in the placement of their
    colons have the same identity, so that the duplicate check at selection
    time answers alike for both. *)
Theorem format_unique_id_canonical (a b : string) (Hsame : same_address a b) :
  format_unique_id (format_unique_id a) = format_unique_id a
  /\ format_unique_id a = format_unique_id b
  /\ (forall hass st adv_a adv_b,
        address adv_a = a -> address adv_b = b ->
        snd (_async_set_device hass adv_a st)
        = snd (_async_set_device hass adv_b st)).
Proof.
  split; [apply format_unique_id_idempotent |].
  pose proof (format_unique_id_same a b Hsame) as Heq.
  split; [exact Heq |].
  intros hass st adv_a adv_b Ha Hb.
  unfold _async_set_device, async_set_unique_id, _abort_if_unique_id_configured,
    bind, modify, get_state, ret, raise.
  cbn [fst snd unique_id set_unique_id]. rewrite Ha, Hb, Heq.
  destruct (decide _); reflexivity.
Qed.

Lemma format_unique_id_canonical_witness :
  format_unique_id "Aa:bB:0c" = format_unique_id "aAB:b0C".
Proof.
  refine (proj1 (proj2 (format_unique_id_canonical "Aa:bB:0c" "aAB:b0C" _))).
  apply (same_lower "A"), (same_upper "A"); [reflexivity.. |].
  apply same_colon_left, (same_upper "B"); [reflexivity |].
  apply same_colon_right, (same_lower "B"); [reflexivity |].
  apply same_colon_left, same_char, (same_upper "C"); [reflexivity |].
  apply same_nil.
Defined.

(** ** Adding a sensor through the options flow *)

(** C9: a search without results shows the [add_sensor] form again with an
    error; a search with one result leads, through the choice of that
    result, to an entry whose list is the old one with the item appended;
    and an item that is already in the list, such as the one just added,
    aborts with [already_configured]. *)
Theorem options_add_sensor {Coordinates : Type}
    (search_empty search_found : Coordinates -> PurpleAir.SearchOutcome)
    (coordinates : Coordinates) (st : PurpleAir.OptionsState) (sensor_index : Z)
    (Hempty : search_empty coordinates = PurpleAir.Found [])
    (Hfound : search_found coordinates = PurpleAir.Found [sensor_index]) :
  PurpleAir.async_step_add_sensor search_empty (Some coordinates) st
    = (st,
       PurpleAir.OptionsForm "add_sensor"
         {["base" := "no_sensors_near_coordinates"]})
  /\ snd (PurpleAir.async_step_add_sensor search_found (Some coordinates) st)
     = PurpleAir.OptionsForm "choose_sensor" ∅
  /\ (sensor_index ∉ PurpleAir.sensor_indices st ->
      let st1 :=
        fst (PurpleAir.async_step_add_sensor search_found (Some coordinates) st) in
      let st2 := fst (PurpleAir.async_step_choose_sensor sensor_index st1) in
      snd (PurpleAir.async_step_choose_sensor sensor_index st1)
        = PurpleAir.OptionsCreateEntry true
            (PurpleAir.sensor_indices st ++ [sensor_index])%list
      /\ PurpleAir.sensor_indices st2
         = (PurpleAir.sensor_indices st ++ [sensor_index])%list
      /\ snd (PurpleAir.async_step_choose_sensor sensor_index
                (fst (PurpleAir.async_step_add_sensor search_found
                        (Some coordinates) st2)))
         = PurpleAir.OptionsAbort "already_configured")
  /\ (sensor_index ∈ PurpleAir.sensor_indices st ->
      snd (PurpleAir.async_step_choose_sensor sensor_index
             (fst (PurpleAir.async_step_add_sensor search_found
                     (Some coordinates) st)))
      = PurpleAir.OptionsAbort "already_configured").
Proof.
  unfold PurpleAir.async_step_add_sensor.
  rewrite Hempty, Hfound. cbn [fst snd].
  split; [reflexivity |]. split; [reflexivity |]. split.
  - intros Hnew. cbv zeta. unfold PurpleAir.async_step_choose_sensor.
    cbn [PurpleAir.sensor_indices PurpleAir.nearby_sensors].
    rewrite bool_decide_eq_false_2 by exact Hnew.
    cbn [fst snd PurpleAir.sensor_indices PurpleAir.nearby_sensors].
    split; [reflexivity |]. split; [reflexivity |].
    rewrite bool_decide_eq_true_2; [reflexivity |].
    apply elem_of_app. right. apply list_elem_of_here.
  - intros Hold. unfold PurpleAir.async_step_choose_sensor.
    cbn [PurpleAir.sensor_indices].
    rewrite bool_decide_eq_true_2 by exact Hold. reflexivity.
Qed.

(** The run of the tests: sensor 123456 is configured, 567890 is found. *)
Lemma options_add_sensor_witness :
  snd (PurpleAir.async_step_choose_sensor 567890
         (fst (PurpleAir.async_step_add_sensor
                 (fun _ : string * string * Z => PurpleAir.Found [567890%Z])
                 (Some ("51.5285582", "-0.2416796", 5%Z))
                 {| PurpleAir.sensor_indices := [123456%Z];
                    PurpleAir.nearby_sensors := [] |})))
  = PurpleAir.OptionsCreateEntry true [123456%Z; 567890%Z].
Proof.
  refine
    (proj1
       (proj1 (proj2 (proj2
          (options_add_sensor
             (fun _ : string * string * Z => PurpleAir.Found [])
             (fun _ : string * string * Z => PurpleAir.Found [567890%Z])
             ("51.5285582", "-0.2416796", 5%Z)
             {| PurpleAir.sensor_indices := [123456%Z];
                PurpleAir.nearby_sensors := [] |}
             567890%Z eq_refl eq_refl))) _)).
  compute_decision.
Defined.

(** ** Further properties of the address functions *)




(** *** The short address *)

Lemma split_length sep s :
  1 <= length (PyStr.split sep s)
  /\ (2 <= length (PyStr.split sep s) <-> In sep (list_ascii_of_string s)).
Proof.
  induction s as [| c s [IH1 IH2]]; cbn [PyStr.split list_ascii_of_string In].
  - cbn. split; [lia |]. split; [lia | intros []].
  - destruct (Ascii.eqb c sep) eqn:Hc.
    + apply Ascii.eqb_eq in Hc. subst c. cbn [length]. split; [lia |].
      split; [intros _; left; reflexivity | intros _; lia].
    + apply Ascii.eqb_neq in Hc.
      destruct (PyStr.split sep s) as [| w ws]; [cbn in IH1; lia |].
      cbn [length] in *. split; [lia |]. rewrite IH2.
      split; [intros H; right; exact H | intros [H | H]; [congruence | exact H]].
Qed.

Lemma replace_dash_colon a :
  In ":"%char (list_ascii_of_string (PyStr.replace "-" ":" a))
  <-> In ":"%char (list_ascii_of_string a) \/ In "-"%char (list_ascii_of_string a).
Proof.
  induction a as [| c a IH]; cbn [PyStr.replace list_ascii_of_string In].
  - tauto.
  - destruct (Ascii.eqb c "-") eqn:Hc.
    + apply Ascii.eqb_eq in Hc. subst c.
      change (":" +:+ PyStr.replace "-" ":" a)
        with (String ":" (PyStr.replace "-" ":" a)).
      cbn [list_ascii_of_string In].
      split; [intros _; right; left; reflexivity | intros _; left; reflexivity].
    + apply Ascii.eqb_neq in Hc. cbn [list_ascii_of_string In]. rewrite IH.
      split; [intros [H | [H | H]] | intros [[H | H] | [H | H]]];
        try tauto; congruence.
Qed.

Lemma substring_length n m s : String.length (String.substring n m s) <= m.
Proof.
  revert n m. induction s as [| c s IH]; intros n m.
  - destruct n, m; cbn; lia.
  - destruct n as [| n]; [destruct m as [| m] |]; cbn [String.substring String.length].
    + lia.
    + specialize (IH 0 m). lia.
    + apply IH.
Qed.

Lemma index_from_end_some {A} (l : list A) k :
  1 <= k <= length l -> is_Some (PyStr.index_from_end l k).
Proof.
  intros Hk. unfold PyStr.index_from_end. rewrite decide_True by exact Hk.
  apply lookup_lt_is_Some. lia.
Qed.

Lemma index_from_end_none {A} (l : list A) k :
  ~ (1 <= k <= length l) -> PyStr.index_from_end l k = None.
Proof.
  intros Hk. unfold PyStr.index_from_end. rewrite decide_False by exact Hk.
  reflexivity.
Qed.

(** X2: the short address fails, with [IndexError], exactly on the
    addresses that have neither a colon nor a dash; on every other address
    it is a string of at most four characters. *)
Theorem short_address_total_on_separated (address : string) :
  (short_address address = Raise IndexError
   <-> ~ In ":"%char (list_ascii_of_string address)
       /\ ~ In "-"%char (list_ascii_of_string address))
  /\ (In ":"%char (list_ascii_of_string address)
      \/ In "-"%char (list_ascii_of_string address) ->
      exists short,
        short_address address = Ok short /\ String.length short <= 4).
Proof.
  unfold short_address. cbv zeta.
  destruct (split_length ":" (PyStr.replace "-" ":" address)) as [H1 H2].
  rewrite replace_dash_colon in H2.
  set (results := PyStr.split ":" (PyStr.replace "-" ":" address)) in *.
  destruct (decide (2 <= length results)) as [Hlen | Hlen].
  - destruct (index_from_end_some results 2 ltac:(lia)) as [r2 ->].
    destruct (index_from_end_some results 1 ltac:(lia)) as [r1 ->].
    split.
    + split; [discriminate |]. intros [Hc Hd]. apply H2 in Hlen. tauto.
    + intros _. eexists. split; [reflexivity |]. apply substring_length.
  - rewrite (index_from_end_none results 2) by lia. split.
    + split; [| reflexivity]. intros _. split; intros Hin; apply Hlen, H2; tauto.
    + intros Hsep. apply H2 in Hsep. contradiction.
Qed.












(** ** The resolver and the key service *)

(** X6: without an access token the key service is not asked: when the
    identity service returns no response that carries a token, the
    resolver fails in the same way whatever the key service and the
    decoder of its replies would do. *)
Theorem retrieve_lock_key_needs_token
    (hmac_sha256_b64 : string -> string -> string)
    (initiate_auth : string -> value -> value -> string -> AuthOutcome)
    (requests_post requests_post' : string -> value -> string -> Res string)
    (json_loads json_loads' : string -> Res value)
    (py_format : value -> string)
    (device_mac : string) (username password : value)
    (Hnone : forall u response result access_token,
        username = VStr u ->
        initiate_auth AppClientId username password
          (hmac_sha256_b64 AppClientSecret (u +:+ AppClientId))
        = AuthReturns response ->
        PyVal.getitem response "AuthenticationResult" = Ok result ->
        PyVal.getitem result "AccessToken" <> Ok access_token) :
  retrieve_lock_key hmac_sha256_b64 initiate_auth requests_post json_loads
    py_format device_mac username password
  = retrieve_lock_key hmac_sha256_b64 initiate_auth requests_post' json_loads'
      py_format device_mac username password
  /\ exists e,
       retrieve_lock_key hmac_sha256_b64 initiate_auth requests_post json_loads
         py_format device_mac username password = Raise e.
Proof.
  unfold retrieve_lock_key.
  destruct username as [| z | u | items]; try (split; [reflexivity | eauto]).
  destruct (initiate_auth _ _ _ _) as [response | |] eqn:Hauth;
    try (split; [reflexivity | eauto]).
  specialize (Hnone u response).
  destruct (PyVal.getitem response "AuthenticationResult") as [result | e] eqn:Hr.
  - destruct (PyVal.getitem result "AccessToken") as [token | e] eqn:Ht.
    + exfalso. exact (Hnone result token eq_refl Hauth eq_refl Ht).
    + repeat case_match; simplify_eq; split; (reflexivity || eauto).
  - repeat case_match; simplify_eq; split; (reflexivity || eauto).
Qed.

(** mallory is rejected, so the key service is not asked for her. *)
Lemma retrieve_lock_key_needs_token_witness :
  exists e,
    retrieve_lock_key Sample.hmac Sample.auth Sample.post Sample.loads
      Sample.format "AA:BB:CC:DD:EE:FF" (VStr "mallory") (VStr "x") = Raise e.
Proof.
  refine
    (proj2
       (retrieve_lock_key_needs_token Sample.hmac Sample.auth Sample.post
          Sample.post Sample.loads Sample.loads Sample.format
          "AA:BB:CC:DD:EE:FF" (VStr "mallory") (VStr "x") _)).
  intros u response result access_token _ Hauth. vm_compute in Hauth.
  discriminate Hauth.
Defined.

(** ** Further instances *)

Local Abbreviation sample_lock_chose_method :=
  (async_step_lock_chose_method Sample.verify Sample.hmac Sample.auth
     Sample.post Sample.loads Sample.format Sample.SUPPORTED).
Local Abbreviation sample_lock_key :=
  (async_step_lock_key Sample.verify Sample.SUPPORTED).
Local Abbreviation sample_create_entry :=
  (_async_create_entry_from_discovery Sample.SUPPORTED).
Local Abbreviation sample_discover_all :=
  (discover_all Sample.parse Sample.CONNECTABLE Sample.NON_CONNECTABLE).

(** The method "login_password" leads to the credential form. *)
Lemma lock_chose_method_dispatches_witness :
  exists schema errors,
    snd (sample_lock_chose_method (Some {["method" := VStr "login_password"]})
           (Sample.chosen "AA:BB:CC:DD:EE:FF" "lock"))
    = Ok (FlowForm "lock_auth" schema errors [("name", "Lock EEFF")]).
Proof.
  exact
    (proj2 (proj2
       (lock_chose_method_dispatches Sample.verify Sample.hmac Sample.auth
          Sample.post Sample.loads Sample.format Sample.SUPPORTED
          (Sample.chosen "AA:BB:CC:DD:EE:FF" "lock")
          (Sample.adv "AA:BB:CC:DD:EE:FF" "lock")
          {["method" := VStr "login_password"]} eq_refl))
       "Lock EEFF" eq_refl).
Defined.

(** A submission that names another address does not change the address of
    the entry. *)
Lemma create_entry_merges_input_witness :
  exists entry_data,
    sample_create_entry
      (<[CONF_ADDRESS := VStr "00:00:00:00:00:00"]> {[CONF_PASSWORD := VStr "x"]})
      (Sample.chosen "AA:BB:CC:DD:00:01" "bot-encrypted")
    = (Sample.chosen "AA:BB:CC:DD:00:01" "bot-encrypted",
       Ok (FlowCreateEntry "Bot 0001" entry_data))
    /\ entry_data !! CONF_ADDRESS = Some (VStr "AA:BB:CC:DD:00:01").
Proof.
  destruct
    (create_entry_merges_input Sample.SUPPORTED
       (Sample.chosen "AA:BB:CC:DD:00:01" "bot-encrypted")
       (Sample.adv "AA:BB:CC:DD:00:01" "bot-encrypted")
       (<[CONF_ADDRESS := VStr "00:00:00:00:00:00"]> {[CONF_PASSWORD := VStr "x"]})
       "WoHand" "bot" "Bot 0001" eq_refl eq_refl eq_refl eq_refl)
    as (entry_data & Hentry & Haddress & _).
  exists entry_data. split; [exact Hentry | exact Haddress].
Defined.

(** An address that the scan has not found. *)
Lemma selection_of_unknown_address_witness :
  sample_user (Sample.hass [] [] [])
    (Some {[CONF_ADDRESS := VStr "AA:BB:CC:DD:00:09"]}) Sample.two_bots
  = (Sample.two_bots, Raise (KeyError (VStr "AA:BB:CC:DD:00:09"))).
Proof.
  refine
    (selection_of_unknown_address Sample.parse Sample.LOCK Sample.verify
       Sample.hmac Sample.auth Sample.post Sample.loads Sample.format
       Sample.CONNECTABLE Sample.NON_CONNECTABLE Sample.SUPPORTED
       (Sample.hass [] [] []) Sample.two_bots
       {[CONF_ADDRESS := VStr "AA:BB:CC:DD:00:09"]} _).
  intros key Hkey. vm_compute in Hkey. injection Hkey as <-. reflexivity.
Defined.

(** Two encrypted bots in range. *)
Lemma selection_form_offers_candidates_witness :
  fst (sample_user
         (Sample.hass []
            [Sample.info "AA:BB:CC:DD:00:01" "bot-encrypted" true;
             Sample.info "AA:BB:CC:DD:00:02" "bot-encrypted" true] [])
         None init_state)
  = Sample.two_bots.
Proof.
  refine
    (proj1
       (selection_form_offers_candidates Sample.parse Sample.LOCK Sample.verify
          Sample.hmac Sample.auth Sample.post Sample.loads Sample.format
          Sample.CONNECTABLE Sample.NON_CONNECTABLE Sample.SUPPORTED
          (Sample.hass []
             [Sample.info "AA:BB:CC:DD:00:01" "bot-encrypted" true;
              Sample.info "AA:BB:CC:DD:00:02" "bot-encrypted" true] [])
          init_state (_discovered_advs Sample.two_bots) _ _)).
  - vm_compute. reflexivity.
  - vm_compute. lia.
Defined.

(** The second bot is selected although it has been configured meanwhile:
    it is recorded, and the run aborts. *)
Lemma selection_records_device_witness :
  exists adv,
    ("AA:BB:CC:DD:00:02", adv) ∈ _discovered_advs Sample.two_bots
    /\ fst (sample_user (Sample.hass ["aabbccdd0002"] [] [])
              (Some {[CONF_ADDRESS := VStr "AA:BB:CC:DD:00:02"]}) Sample.two_bots)
       = selected adv Sample.two_bots.
Proof.
  assert (Hkey : ({[CONF_ADDRESS := VStr "AA:BB:CC:DD:00:02"]}
                    : gmap string value) !! CONF_ADDRESS
                 = Some (VStr "AA:BB:CC:DD:00:02")) by (vm_compute; reflexivity).
  assert (Hoffered : "AA:BB:CC:DD:00:02" ∈ (_discovered_advs Sample.two_bots).*1)
    by compute_decision.
  destruct
    (selection_records_device Sample.parse Sample.LOCK Sample.verify
       Sample.hmac Sample.auth Sample.post Sample.loads Sample.format
       Sample.CONNECTABLE Sample.NON_CONNECTABLE Sample.SUPPORTED
       (Sample.hass ["aabbccdd0002"] [] []) Sample.two_bots _ _ Hkey Hoffered)
    as (adv & Hin & Hstate & _).
  exists adv. split; [exact Hin | exact Hstate].
Defined.

(** A scan that starts from one bot and finds a meter. *)
Lemma scan_extends_map_witness :
  NoDup
    (sample_discover_all
       (Sample.hass [] [] [Sample.info "AA:BB:CC:DD:00:03" "meter" false])
       [("AA:BB:CC:DD:00:01", Sample.adv "AA:BB:CC:DD:00:01" "bot")]).*1.
Proof.
  refine
    (proj1 (proj2
       (scan_extends_map Sample.parse Sample.CONNECTABLE Sample.NON_CONNECTABLE
          (Sample.hass [] [] [Sample.info "AA:BB:CC:DD:00:03" "meter" false])
          [("AA:BB:CC:DD:00:01", Sample.adv "AA:BB:CC:DD:00:01" "bot")] _))).
  compute_decision.
Defined.

Lemma scan_adds_only_eligible_witness :
  exists c info,
    info ∈ async_discovered_service_info
             (Sample.hass [] [] [Sample.info "AA:BB:CC:DD:00:03" "meter" false]) c
    /\ info_address info = "AA:BB:CC:DD:00:03".
Proof.
  assert (Hfound :
            ("AA:BB:CC:DD:00:03", Sample.adv "AA:BB:CC:DD:00:03" "meter")
            ∈ sample_discover_all
                (Sample.hass [] [] [Sample.info "AA:BB:CC:DD:00:03" "meter" false])
                [("AA:BB:CC:DD:00:01", Sample.adv "AA:BB:CC:DD:00:01" "bot")]).
  { replace (sample_discover_all _ _)
      with [("AA:BB:CC:DD:00:01", Sample.adv "AA:BB:CC:DD:00:01" "bot");
            ("AA:BB:CC:DD:00:03", Sample.adv "AA:BB:CC:DD:00:03" "meter")]
      by (vm_compute; reflexivity).
    apply list_elem_of_further, list_elem_of_here. }
  assert (Hnew :
            ("AA:BB:CC:DD:00:03", Sample.adv "AA:BB:CC:DD:00:03" "meter")
            ∉ [("AA:BB:CC:DD:00:01", Sample.adv "AA:BB:CC:DD:00:01" "bot")]).
  { intros H. apply list_elem_of_singleton in H. discriminate H. }
  destruct
    (scan_adds_only_eligible Sample.parse Sample.CONNECTABLE
       Sample.NON_CONNECTABLE _ _ _ _ Hfound Hnew)
    as (c & info & Hin & Haddress & _).
  exists c, info. split; [exact Hin | exact Haddress].
Defined.

Lemma scan_finds_every_eligible_witness :
  OrdDict.mem "AA:BB:CC:DD:00:03"
    (sample_discover_all
       (Sample.hass [] [] [Sample.info "AA:BB:CC:DD:00:03" "meter" false])
       [("AA:BB:CC:DD:00:01", Sample.adv "AA:BB:CC:DD:00:01" "bot")])
  = true.
Proof.
  exact
    (scan_finds_every_eligible Sample.parse Sample.CONNECTABLE
       Sample.NON_CONNECTABLE
       (Sample.hass [] [] [Sample.info "AA:BB:CC:DD:00:03" "meter" false])
       [("AA:BB:CC:DD:00:01", Sample.adv "AA:BB:CC:DD:00:01" "bot")]
       false (Sample.info "AA:BB:CC:DD:00:03" "meter" false)
       (Sample.adv "AA:BB:CC:DD:00:03" "meter")
       (list_elem_of_here _ _) ltac:(compute_decision) eq_refl eq_refl).
Defined.

(** A meter heard over a non-connectable path is confirmed. *)
Lemma bluetooth_accepts_eligible_witness :
  snd (sample_bluetooth (Sample.hass [] [] [])
         (Sample.info "AA:BB:CC:DD:00:03" "meter" false) init_state)
  = Ok (FlowForm "confirm" [] None [("name", "Meter 0003")]).
Proof.
  exact
    (f_equal snd
       (bluetooth_accepts_eligible Sample.parse Sample.CONNECTABLE
          Sample.SUPPORTED (Sample.hass [] [] []) init_state
          (Sample.info "AA:BB:CC:DD:00:03" "meter" false)
          (Sample.adv "AA:BB:CC:DD:00:03" "meter") "0003" "Meter 0003"
          ltac:(compute_decision) eq_refl eq_refl (or_intror eq_refl)
          eq_refl eq_refl)).
Defined.

Lemma passive_form_then_entry_witness :
  exists parsed title entry_data,
    Sample.parse
      (info_device (Sample.info "AA:BB:CC:DD:00:03" "meter" false))
      (info_advertisement (Sample.info "AA:BB:CC:DD:00:03" "meter" false))
    = Some parsed
    /\ snd (async_step_confirm Sample.SUPPORTED (Some ∅)
              (fst (sample_bluetooth (Sample.hass [] [] [])
                      (Sample.info "AA:BB:CC:DD:00:03" "meter" false) init_state)))
       = Ok (FlowCreateEntry title entry_data)
    /\ entry_data !! CONF_ADDRESS = Some (VStr (address parsed)).
Proof.
  destruct
    (passive_form_then_entry Sample.parse Sample.CONNECTABLE Sample.SUPPORTED
       (Sample.hass [] [] []) init_state
       (Sample.info "AA:BB:CC:DD:00:03" "meter" false)
       "confirm" [] None [("name", "Meter 0003")] ∅ eq_refl)
    as (parsed & title & entry_data & Hparsed & _ & _ & Hconfirm & Haddress & _).
  exists parsed, title, entry_data.
  split; [exact Hparsed |]. split; [rewrite Hconfirm; reflexivity | exact Haddress].
Defined.

(** A plain bot is selected among two. *)
Lemma plain_candidate_finalized_at_once_witness :
  snd (sample_user (Sample.hass [] [] [])
         (Some {[CONF_ADDRESS := VStr "AA:BB:CC:DD:00:01"]})
         (set_discovered_advs
            [("AA:BB:CC:DD:00:01", Sample.adv "AA:BB:CC:DD:00:01" "bot");
             ("AA:BB:CC:DD:00:03", Sample.adv "AA:BB:CC:DD:00:03" "meter")]
            init_state))
  = Ok (FlowCreateEntry "Bot 0001"
          (<[CONF_SENSOR_TYPE := VStr "bot"]>
             (<[CONF_ADDRESS := VStr "AA:BB:CC:DD:00:01"]>
                {[CONF_ADDRESS := VStr "AA:BB:CC:DD:00:01"]}))).
Proof.
  refine
    (f_equal snd
       (plain_candidate_finalized_at_once Sample.parse Sample.LOCK Sample.verify
          Sample.hmac Sample.auth Sample.post Sample.loads Sample.format
          Sample.CONNECTABLE Sample.NON_CONNECTABLE Sample.SUPPORTED
          (Sample.hass [] [] [])
          (set_discovered_advs
             [("AA:BB:CC:DD:00:01", Sample.adv "AA:BB:CC:DD:00:01" "bot");
              ("AA:BB:CC:DD:00:03", Sample.adv "AA:BB:CC:DD:00:03" "meter")]
             init_state)
          {[CONF_ADDRESS := VStr "AA:BB:CC:DD:00:01"]} "AA:BB:CC:DD:00:01"
          (Sample.adv "AA:BB:CC:DD:00:01" "bot") "WoHand" "bot" "Bot 0001"
          eq_refl eq_refl _ eq_refl _ eq_refl eq_refl eq_refl)).
  - compute_decision.
  - discriminate.
Defined.

(** Two wrong keys, then mallory and dave. *)
Lemma rejected_submissions_rerender_witness :
  fst (submit_all (fun ui => sample_lock_key (Some ui))
         [<[CONF_ENCRYPTION_KEY := VStr "bad"]> {[CONF_KEY_ID := VStr "ff"]};
          <[CONF_ENCRYPTION_KEY := VStr "c0ffee"]> {[CONF_KEY_ID := VStr "00"]}]
         (Sample.chosen "AA:BB:CC:DD:EE:FF" "lock"))
  = Sample.chosen "AA:BB:CC:DD:EE:FF" "lock".
Proof.
  assert (Hkeys :
            Forall (fun ui : gmap string value =>
                      Sample.verify
                        (device (Sample.adv "AA:BB:CC:DD:EE:FF" "lock"))
                        (PyVal.get ui CONF_KEY_ID)
                        (PyVal.get ui CONF_ENCRYPTION_KEY) = false)
              [<[CONF_ENCRYPTION_KEY := VStr "bad"]> {[CONF_KEY_ID := VStr "ff"]};
               <[CONF_ENCRYPTION_KEY := VStr "c0ffee"]>
                 {[CONF_KEY_ID := VStr "00"]}])
    by (repeat constructor; vm_compute; reflexivity).
  assert (Hcredentials :
            Forall (fun ui : gmap string value =>
                      exists msg,
                        retrieve_lock_key Sample.hmac Sample.auth Sample.post
                          Sample.loads Sample.format
                          (address (Sample.adv "AA:BB:CC:DD:EE:FF" "lock"))
                          (PyVal.get ui CONF_USERNAME)
                          (PyVal.get ui CONF_PASSWORD)
                        = Raise (RuntimeError msg))
              [Sample.credentials "mallory" "x"; Sample.credentials "dave" "x"])
    by (repeat constructor; eexists; vm_compute; reflexivity).
  exact
    (f_equal fst
       (proj1
          (rejected_submissions_rerender Sample.verify Sample.hmac Sample.auth
             Sample.post Sample.loads Sample.format Sample.SUPPORTED
             (Sample.chosen "AA:BB:CC:DD:EE:FF" "lock")
             (Sample.adv "AA:BB:CC:DD:EE:FF" "lock") "Lock EEFF"
             _ _ eq_refl eq_refl Hkeys Hcredentials))).
Defined.
